(** * Processor: the ROS2 node bridging image topics and the inference engine

    Shallow embedding of [epd_utils_lib/processor.hpp]: the constructor
    [Processor::Processor] and the two subscription callbacks
    [Processor::image_callback] and [Processor::localize_callback].

    The callbacks are embedded in a small monad that threads the node's
    mutable state, records every observable action (log lines, engine
    construction, inference calls, publications) and distinguishes a normal
    return from a C++ exception leaving the callback. *)

From Stdlib Require Import ZArith List String Bool Lia.
Import ListNotations.
Local Open Scope string_scope.
Local Open Scope list_scope.
Local Open Scope Z_scope.

(** ** Message and buffer types *)

(** A floating-point payload ([float], [double]).  The callbacks only copy
    such values from an inference result into a message, they never compute
    on them, so a value is carried as its bit pattern. *)
Definition float_bits := Z.

(** [std_msgs::msg::Header]; [Header()] is the value-initialised header. *)
Module Header.
Record t := mk { stamp : Z; frame_id : string }.
Definition default : t := {| stamp := 0; frame_id := "" |}.
End Header.

(** [sensor_msgs::msg::Image]; [height] and [width] are [uint32]. *)
Module Image.
Record t := mk {
  header : Header.t;
  height : Z;
  width : Z;
  encoding : string;
  step : Z;
  data : list Z
}.
End Image.

(** [cv::Mat], as far as the node reads it: [rows], [cols] and the pixels. *)
Module Mat.
Record t := mk { rows : Z; cols : Z; pixels : list Z }.
End Mat.

(** [sensor_msgs::msg::CameraInfo]; passed through unchanged. *)
Module CameraInfo.
Record t := mk {
  height : Z;
  width : Z;
  distortion_model : string;
  k : list float_bits
}.
End CameraInfo.

(** [sensor_msgs::msg::RegionOfInterest]; the four extents are [uint32]. *)
Module RegionOfInterest.
Record t := mk {
  x_offset : Z;
  y_offset : Z;
  height : Z;
  width : Z;
  do_rectify : bool
}.
(** A default-constructed message. *)
Definition default : t :=
  {| x_offset := 0; y_offset := 0; height := 0; width := 0;
     do_rectify := false |}.
End RegionOfInterest.

(** [geometry_msgs::msg::Point]. *)
Module Point.
Record t := mk { x : float_bits; y : float_bits; z : float_bits }.
End Point.

(** [epd_msgs::msg::EPDImageClassification]. *)
Module EPDImageClassification.
Record t := mk { object_names : list string }.
End EPDImageClassification.

(** [epd_msgs::msg::EPDObjectDetection], the record published on the
    tier-2 and tier-3 channels. *)
Module EPDObjectDetectionMsg.
Record t := mk {
  class_indices : list Z;
  scores : list float_bits;
  bboxes : list RegionOfInterest.t;
  masks : list Image.t
}.
Definition default : t :=
  {| class_indices := []; scores := []; bboxes := []; masks := [] |}.
End EPDObjectDetectionMsg.

(** [epd_msgs::msg::LocalizedObject]; the entries of
    [EPD::EPDObjectLocalization::objects] carry the same six fields. *)
Module LocalizedObject.
Record t := mk {
  name : string;
  pos : Point.t;
  roi : RegionOfInterest.t;
  breadth : float_bits;
  length : float_bits;
  height : float_bits
}.
End LocalizedObject.

(** [epd_msgs::msg::EPDObjectLocalization]. *)
Module EPDObjectLocalizationMsg.
Record t := mk {
  header : Header.t;
  frame_width : Z;
  frame_height : Z;
  depth_image : Image.t;
  camera_info : CameraInfo.t;
  num_objects : nat;
  objects : list LocalizedObject.t;
  roi_array : list RegionOfInterest.t;
  process_time : Z
}.
End EPDObjectLocalizationMsg.

(** [EPD::EPDObjectDetection], the raw result of [infer_action(img)].  Its
    declaration lives in [epd_container.hpp]; the fields are the ones the
    callback reads.  The element type [Coord] of a bounding box is left
    open. *)
Module EPDObjectDetection.
Record t (Coord : Type) := mk {
  data_size : nat;
  classIndices : list Z;
  scores : list float_bits;
  bboxes : list (list Coord);
  masks : list Mat.t
}.
Arguments mk {Coord}.
Arguments data_size {Coord}.
Arguments classIndices {Coord}.
Arguments scores {Coord}.
Arguments bboxes {Coord}.
Arguments masks {Coord}.
End EPDObjectDetection.

(** [EPD::EPDObjectLocalization], the raw result of
    [infer_action(img, depth_img, camera_info)]. *)
Module EPDObjectLocalization.
Record t := mk {
  data_size : nat;
  objects : list LocalizedObject.t
}.
End EPDObjectLocalization.

(** ** Session state *)

(** Modelled from the spec: [EPD::EPDContainer] ([epd_container.hpp], not
    part of the sources at hand).  The spec's Session State has
    [initialized], [lockedWidth], [lockedHeight], the configured
    [precisionTier] (member [precision_level]), [visualize] and
    [useCaseMode]; the accessors below are the ones the callbacks call. *)
Record EPDContainer := mkEPDContainer {
  initialized : bool;
  lockedWidth : Z;
  lockedHeight : Z;
  precision_level : Z;
  visualize : bool;
  useCaseMode : Z
}.

(** ** Exceptions, outputs and the event trace *)

Inductive exn :=
| runtime_error (what : string)             (* std::runtime_error *)
| foreign_error (origin what : string).     (* raised by a collaborator *)

(** One constructor per publisher member of the node. *)
Inductive Output :=
| visual_pub (m : Image.t)
| p1_pub (m : EPDImageClassification.t)
| p2_pub (m : EPDObjectDetectionMsg.t)
| p3_pub (m : EPDObjectDetectionMsg.t)
| localize_pub (m : EPDObjectLocalizationMsg.t).

(** The inference entry points the callbacks invoke. *)
Inductive InferOp :=
| P1_infer
| P2_infer_visualize
| P2_infer_action
| P3_infer_visualize
| P3_infer_action
| P3_infer_visualize_depth
| P3_infer_action_depth.

Inductive Event :=
| EvWarn (text : string)            (* RCLCPP_WARN *)
| EvFps (elapsed_ms : Z)            (* RCLCPP_INFO "[-FPS-]= %f" of the frame
                                       rate 1000.0 / elapsed_ms; the event
                                       keeps the divisor, the floating-point
                                       quotient is not computed *)
| EvInit (w h : Z)                  (* initORTSessionHandler() entered *)
| EvInfer (op : InferOp) (failure : option exn)
                                    (* an inference call, and the exception
                                       it raised if it raised one *)
| EvPublish (o : Output).           (* publisher->publish(...) *)

(** ** External collaborators

    Everything the header calls but does not define: [cv_bridge], the ONNX
    sessions held by [ortAgent_], the clock.  [Session] is the opaque state
    of the three session handles; a call may throw, and may change that
    state.  [coord_sub] and [coord_to_uint32] are the subtraction on the
    bounding box element type and its implicit conversion to the [uint32]
    fields of a [RegionOfInterest]. *)
Record Extern (Session Coord : Type) := mkExtern {
  coord_sub : Coord -> Coord -> Coord;
  coord_to_uint32 : Coord -> Z;
  toCvCopy : Image.t -> string -> exn + Mat.t;
  toImageMsg : Header.t -> string -> Mat.t -> Image.t;
  ort_initORTSessionHandler : EPDContainer -> Session -> exn + Session;
  p1_infer : Session -> Mat.t -> (exn + list string) * Session;
  p2_infer_visualize : Session -> Mat.t -> (exn + Mat.t) * Session;
  p2_infer_action :
    Session -> Mat.t -> (exn + EPDObjectDetection.t Coord) * Session;
  p3_infer_visualize : Session -> Mat.t -> (exn + Mat.t) * Session;
  p3_infer_action :
    Session -> Mat.t -> (exn + EPDObjectDetection.t Coord) * Session;
  p3_infer_visualize_depth :
    Session -> Mat.t -> Mat.t -> CameraInfo.t -> (exn + Mat.t) * Session;
  p3_infer_action_depth :
    Session -> Mat.t -> Mat.t -> CameraInfo.t ->
    (exn + EPDObjectLocalization.t) * Session;
  (** [clock n] is the [n]-th reading of [high_resolution_clock::now()],
      in nanoseconds. *)
  clock : nat -> Z
}.

Arguments coord_sub {Session Coord}.
Arguments coord_to_uint32 {Session Coord}.
Arguments toCvCopy {Session Coord}.
Arguments toImageMsg {Session Coord}.
Arguments ort_initORTSessionHandler {Session Coord}.
Arguments p1_infer {Session Coord}.
Arguments p2_infer_visualize {Session Coord}.
Arguments p2_infer_action {Session Coord}.
Arguments p3_infer_visualize {Session Coord}.
Arguments p3_infer_action {Session Coord}.
Arguments p3_infer_visualize_depth {Session Coord}.
Arguments p3_infer_action_depth {Session Coord}.
Arguments clock {Session Coord}.

(** ** The callback monad *)

(** The mutable part of the node: [ortAgent_] (flags and sessions) and the
    number of clock readings taken so far. *)
Record State (Session : Type) := mkState {
  ortAgent_ : EPDContainer;
  sessions : Session;
  clock_reads : nat
}.
Arguments mkState {Session}.
Arguments ortAgent_ {Session}.
Arguments sessions {Session}.
Arguments clock_reads {Session}.

(** How a computation ends: it returns, an exception leaves it, or it reads
    a vector out of range (undefined behaviour in C++). *)
Inductive Outcome (A : Type) :=
| Val (a : A)
| Thrown (e : exn)
| Undefined.
Arguments Val {A}.
Arguments Thrown {A}.
Arguments Undefined {A}.

(** State is kept when an exception is thrown: what was assigned before the
    [throw] stays assigned. *)
Definition M (Session A : Type) : Type :=
  State Session -> Outcome A * State Session * list Event.

Section Monad.
Context {Session : Type}.

Definition ret {A} (a : A) : M Session A := fun s => (Val a, s, []).

Definition bind {A B} (m : M Session A) (f : A -> M Session B)
  : M Session B :=
  fun s =>
    match m s with
    | (Val a, s1, t1) =>
        let '(o, s2, t2) := f a s1 in (o, s2, t1 ++ t2)
    | (Thrown e, s1, t1) => (Thrown e, s1, t1)
    | (Undefined, s1, t1) => (Undefined, s1, t1)
    end.

Definition throw {A} (e : exn) : M Session A := fun s => (Thrown e, s, []).
Definition undefined {A} : M Session A := fun s => (Undefined, s, []).
Definition emit (e : Event) : M Session unit := fun s => (Val tt, s, [e]).

Definition get_agent : M Session EPDContainer :=
  fun s => (Val (ortAgent_ s), s, []).
Definition set_agent (a : EPDContainer) : M Session unit :=
  fun s => (Val tt, mkState a (sessions s) (clock_reads s), []).
End Monad.

Declare Scope cb_scope.
Delimit Scope cb_scope with cb.
Notation "x <- c ;; k" := (bind c (fun x => k))
  (at level 61, c at next level, right associativity) : cb_scope.
Notation "c ;; k" := (bind c (fun _ => k))
  (at level 61, right associativity) : cb_scope.
Local Open Scope cb_scope.

(** ** Loops over a result's entries *)

(** [for (size_t i = start; i < start + count; i++) acc = body(i, acc)],
    where the body fails when it indexes a vector out of range. *)
Fixpoint for_loop {A : Type} (start count : nat)
    (body : nat -> A -> option A) (acc : A) : option A :=
  match count with
  | O => Some acc
  | S count' =>
      match body start acc with
      | Some acc' => for_loop (S start) count' body acc'
      | None => None
      end
  end.

Definition obind {A B : Type} (o : option A) (f : A -> option B) : option B :=
  match o with
  | Some a => f a
  | None => None
  end.

(** [duration_cast<milliseconds>(end - begin).count()] on nanosecond
    readings: integer division truncating toward zero. *)
Definition elapsed_ms (begin_ end_ : Z) : Z := Z.quot (end_ - begin_) 1000000.

(** ** The node's operations *)

Section Processor.
Context {Session Coord : Type} (X : Extern Session Coord).

Local Notation "'CB'" := (M Session).

(** *** Accessors of [ortAgent_] *)

(** Modelled from the spec: [EPDContainer::isInit], absent from the sources;
    reads the Session State's [initialized]. *)
Definition isInit : CB bool := a <- get_agent ;; ret (initialized a).

(** Modelled from the spec: [EPDContainer::getWidth], absent from the
    sources; reads [lockedWidth]. *)
Definition getWidth : CB Z := a <- get_agent ;; ret (lockedWidth a).

(** Modelled from the spec: [EPDContainer::getHeight], absent from the
    sources; reads [lockedHeight]. *)
Definition getHeight : CB Z := a <- get_agent ;; ret (lockedHeight a).

(** Modelled from the spec: [EPDContainer::isVisualize], absent from the
    sources; reads the configured [visualize] flag. *)
Definition isVisualize : CB bool := a <- get_agent ;; ret (visualize a).

(** The public member [ortAgent_.precision_level]. *)
Definition get_precision_level : CB Z :=
  a <- get_agent ;; ret (precision_level a).

(** Modelled from the spec: [EPDContainer::setFrameDimension], absent from
    the sources; sets [lockedWidth] and [lockedHeight] and nothing else. *)
Definition setFrameDimension (w h : Z) : CB unit :=
  a <- get_agent ;;
  set_agent (mkEPDContainer (initialized a) w h (precision_level a)
               (visualize a) (useCaseMode a)).

(** Modelled from the spec: [EPDContainer::setInitBoolean], absent from the
    sources; sets [initialized] and nothing else. *)
Definition setInitBoolean (b : bool) : CB unit :=
  a <- get_agent ;;
  set_agent (mkEPDContainer b (lockedWidth a) (lockedHeight a)
               (precision_level a) (visualize a) (useCaseMode a)).

(** Modelled from the spec: [EPDContainer::initORTSessionHandler], absent
    from the sources; the one-time engine construction.  It is recorded in
    the trace with the dimensions it is sized to, then handed to the
    collaborator, which builds the sessions or throws; the flags of
    [ortAgent_] are not touched. *)
Definition initORTSessionHandler : CB unit :=
  fun s =>
    let a := ortAgent_ s in
    let ev := [EvInit (lockedWidth a) (lockedHeight a)] in
    match ort_initORTSessionHandler X a (sessions s) with
    | inr ss => (Val tt, mkState a ss (clock_reads s), ev)
    | inl e => (Thrown e, s, ev)
    end.

(** A call through one of the session handles. *)
Definition session_call {R : Type} (op : InferOp)
    (f : Session -> (exn + R) * Session) : CB R :=
  fun s =>
    let '(r, ss) := f (sessions s) in
    match r with
    | inr v =>
        (Val v, mkState (ortAgent_ s) ss (clock_reads s),
         [EvInfer op None])
    | inl e =>
        (Thrown e, mkState (ortAgent_ s) ss (clock_reads s),
         [EvInfer op (Some e)])
    end.

Definition cv_bridge_toCvCopy (msg : Image.t) (enc : string) : CB Mat.t :=
  match toCvCopy X msg enc with
  | inr m => ret m
  | inl e => throw e
  end.

Definition now : CB Z :=
  fun s =>
    (Val (clock X (clock_reads s)),
     mkState (ortAgent_ s) (sessions s) (S (clock_reads s)),
     []).

Definition publish (o : Output) : CB unit := emit (EvPublish o).
Definition RCLCPP_WARN (text : string) : CB unit := emit (EvWarn text).
(** [RCLCPP_INFO(this->get_logger(), "[-FPS-]= %f\n", 1000.0 / ms)], with
    [ms] the value of [elapsedTime.count()] (lines 207, 240 and 362).  What
    is printed is the floating-point quotient; the event records the call
    by its divisor [ms]. *)
Definition RCLCPP_INFO_fps (ms : Z) : CB unit := emit (EvFps ms).

Definition defined {A : Type} (o : option A) : CB A :=
  match o with
  | Some a => ret a
  | None => undefined
  end.

(** *** Result formatting *)

(** Lines 312-317 and 340-345: the region of interest built from
    [result.bboxes[i]]. *)
Definition roi_of_bbox (b : list Coord) : option RegionOfInterest.t :=
  obind (nth_error b 0) (fun b0 =>
  obind (nth_error b 1) (fun b1 =>
  obind (nth_error b 2) (fun b2 =>
  obind (nth_error b 3) (fun b3 =>
    Some {| RegionOfInterest.x_offset := coord_to_uint32 X b0;
            RegionOfInterest.y_offset := coord_to_uint32 X b1;
            RegionOfInterest.width :=
              coord_to_uint32 X (coord_sub X b2 b0);
            RegionOfInterest.height :=
              coord_to_uint32 X (coord_sub X b3 b1);
            RegionOfInterest.do_rectify := false |})))).

(** Body of the tier-2 loop, lines 308-318. *)
Definition p2_body (result : EPDObjectDetection.t Coord) (i : nat)
    (output_msg : EPDObjectDetectionMsg.t)
  : option EPDObjectDetectionMsg.t :=
  obind (nth_error (EPDObjectDetection.classIndices result) i) (fun ci =>
  obind (nth_error (EPDObjectDetection.scores result) i) (fun sc =>
  obind (nth_error (EPDObjectDetection.bboxes result) i) (fun bb =>
  obind (roi_of_bbox bb) (fun roi =>
    Some {| EPDObjectDetectionMsg.class_indices :=
              EPDObjectDetectionMsg.class_indices output_msg ++ [ci];
            EPDObjectDetectionMsg.scores :=
              EPDObjectDetectionMsg.scores output_msg ++ [sc];
            EPDObjectDetectionMsg.bboxes :=
              EPDObjectDetectionMsg.bboxes output_msg ++ [roi];
            EPDObjectDetectionMsg.masks :=
              EPDObjectDetectionMsg.masks output_msg |})))).

(** Body of the tier-3 loop, lines 336-350: as tier 2, then the mask. *)
Definition p3_body (result : EPDObjectDetection.t Coord) (i : nat)
    (output_msg : EPDObjectDetectionMsg.t)
  : option EPDObjectDetectionMsg.t :=
  obind (nth_error (EPDObjectDetection.classIndices result) i) (fun ci =>
  obind (nth_error (EPDObjectDetection.scores result) i) (fun sc =>
  obind (nth_error (EPDObjectDetection.bboxes result) i) (fun bb =>
  obind (roi_of_bbox bb) (fun roi =>
  obind (nth_error (EPDObjectDetection.masks result) i) (fun mk =>
    let mask := toImageMsg X Header.default "32FC1" mk in
    Some {| EPDObjectDetectionMsg.class_indices :=
              EPDObjectDetectionMsg.class_indices output_msg ++ [ci];
            EPDObjectDetectionMsg.scores :=
              EPDObjectDetectionMsg.scores output_msg ++ [sc];
            EPDObjectDetectionMsg.bboxes :=
              EPDObjectDetectionMsg.bboxes output_msg ++ [roi];
            EPDObjectDetectionMsg.masks :=
              EPDObjectDetectionMsg.masks output_msg ++ [mask] |}))))).

Definition p2_fill (result : EPDObjectDetection.t Coord)
  : option EPDObjectDetectionMsg.t :=
  for_loop 0 (EPDObjectDetection.data_size result) (p2_body result)
    EPDObjectDetectionMsg.default.

Definition p3_fill (result : EPDObjectDetection.t Coord)
  : option EPDObjectDetectionMsg.t :=
  for_loop 0 (EPDObjectDetection.data_size result) (p3_body result)
    EPDObjectDetectionMsg.default.

(** Body of the localization loop, lines 226-235. *)
Definition localize_body (result : EPDObjectLocalization.t) (i : nat)
    (output_msg : EPDObjectLocalizationMsg.t)
  : option EPDObjectLocalizationMsg.t :=
  obind (nth_error (EPDObjectLocalization.objects result) i) (fun o =>
    let object :=
      {| LocalizedObject.name := LocalizedObject.name o;
         LocalizedObject.pos := LocalizedObject.pos o;
         LocalizedObject.roi := LocalizedObject.roi o;
         LocalizedObject.breadth := LocalizedObject.breadth o;
         LocalizedObject.length := LocalizedObject.length o;
         LocalizedObject.height := LocalizedObject.height o |} in
    Some {| EPDObjectLocalizationMsg.header :=
              EPDObjectLocalizationMsg.header output_msg;
            EPDObjectLocalizationMsg.frame_width :=
              EPDObjectLocalizationMsg.frame_width output_msg;
            EPDObjectLocalizationMsg.frame_height :=
              EPDObjectLocalizationMsg.frame_height output_msg;
            EPDObjectLocalizationMsg.depth_image :=
              EPDObjectLocalizationMsg.depth_image output_msg;
            EPDObjectLocalizationMsg.camera_info :=
              EPDObjectLocalizationMsg.camera_info output_msg;
            EPDObjectLocalizationMsg.num_objects :=
              EPDObjectLocalizationMsg.num_objects output_msg;
            EPDObjectLocalizationMsg.objects :=
              EPDObjectLocalizationMsg.objects output_msg ++ [object];
            EPDObjectLocalizationMsg.roi_array :=
              EPDObjectLocalizationMsg.roi_array output_msg
                ++ [LocalizedObject.roi o];
            EPDObjectLocalizationMsg.process_time :=
              EPDObjectLocalizationMsg.process_time output_msg |}).

(** Lines 214-236: the record before [process_time] is known. *)
Definition localize_fill (img : Mat.t) (depth_msg : Image.t)
    (camera_info : CameraInfo.t) (result : EPDObjectLocalization.t)
  : option EPDObjectLocalizationMsg.t :=
  for_loop 0 (EPDObjectLocalization.data_size result) (localize_body result)
    {| EPDObjectLocalizationMsg.header := Header.default;
       EPDObjectLocalizationMsg.frame_width := Mat.cols img;
       EPDObjectLocalizationMsg.frame_height := Mat.rows img;
       EPDObjectLocalizationMsg.depth_image := depth_msg;
       EPDObjectLocalizationMsg.camera_info := camera_info;
       EPDObjectLocalizationMsg.num_objects :=
         EPDObjectLocalization.data_size result;
       EPDObjectLocalizationMsg.objects := [];
       EPDObjectLocalizationMsg.roi_array := [];
       EPDObjectLocalizationMsg.process_time := 0 |}.

(** Line 242: [output_msg.process_time = elapsedTime.count()]. *)
Definition set_process_time (m : EPDObjectLocalizationMsg.t) (ms : Z)
  : EPDObjectLocalizationMsg.t :=
  {| EPDObjectLocalizationMsg.header := EPDObjectLocalizationMsg.header m;
     EPDObjectLocalizationMsg.frame_width :=
       EPDObjectLocalizationMsg.frame_width m;
     EPDObjectLocalizationMsg.frame_height :=
       EPDObjectLocalizationMsg.frame_height m;
     EPDObjectLocalizationMsg.depth_image :=
       EPDObjectLocalizationMsg.depth_image m;
     EPDObjectLocalizationMsg.camera_info :=
       EPDObjectLocalizationMsg.camera_info m;
     EPDObjectLocalizationMsg.num_objects :=
       EPDObjectLocalizationMsg.num_objects m;
     EPDObjectLocalizationMsg.objects := EPDObjectLocalizationMsg.objects m;
     EPDObjectLocalizationMsg.roi_array :=
       EPDObjectLocalizationMsg.roi_array m;
     EPDObjectLocalizationMsg.process_time := ms |}.

(** *** The initialise-or-check block

    Lines 178-192 of [localize_callback] and lines 265-279 of
    [image_callback]; the two blocks are the same text. *)
Definition init_or_check (img : Mat.t) : CB unit :=
  init <- isInit ;;
  if negb init then
    setFrameDimension (Mat.cols img) (Mat.rows img) ;;
    initORTSessionHandler ;;
    setInitBoolean true
  else
    w <- getWidth ;;
    h <- getHeight ;;
    if negb (w =? Mat.cols img) && negb (h =? Mat.rows img) then
      throw (runtime_error "Input camera changed. Please restart.")
    else
      ret tt.

(** *** [Processor::image_callback] *)

(** The [switch (ortAgent_.precision_level)] of lines 285-357. *)
Definition tier_switch (img : Mat.t) : CB unit :=
  lvl <- get_precision_level ;;
  match lvl with
  | 1 =>
      names <- session_call P1_infer (fun ss => p1_infer X ss img) ;;
      publish (p1_pub {| EPDImageClassification.object_names := names |})
  | 2 =>
      vis <- isVisualize ;;
      if vis then
        resultImg <- session_call P2_infer_visualize
                       (fun ss => p2_infer_visualize X ss img) ;;
        publish (visual_pub (toImageMsg X Header.default "bgr8" resultImg))
      else
        result <- session_call P2_infer_action
                    (fun ss => p2_infer_action X ss img) ;;
        output_msg <- defined (p2_fill result) ;;
        publish (p2_pub output_msg)
  | 3 =>
      vis <- isVisualize ;;
      if vis then
        resultImg <- session_call P3_infer_visualize
                       (fun ss => p3_infer_visualize X ss img) ;;
        publish (visual_pub (toImageMsg X Header.default "bgr8" resultImg))
      else
        result <- session_call P3_infer_action
                    (fun ss => p3_infer_action X ss img) ;;
        output_msg <- defined (p3_fill result) ;;
        publish (p3_pub output_msg)
  | _ => ret tt
  end.

Definition image_callback (msg : Image.t) : CB unit :=
  if Image.height msg =? 0 then
    RCLCPP_WARN "Input image empty. Discarding."
  else
    img <- cv_bridge_toCvCopy msg "bgr8" ;;
    init_or_check img ;;
    begin_ <- now ;;
    tier_switch img ;;
    end_ <- now ;;
    RCLCPP_INFO_fps (elapsed_ms begin_ end_).

(** *** [Processor::localize_callback] *)

(** Lines 196-245: the localization dispatch, [begin_] being the reading
    taken at line 194. *)
Definition localize_dispatch (img depth_img : Mat.t) (depth_msg : Image.t)
    (camera_info : CameraInfo.t) (begin_ : Z) : CB unit :=
  vis <- isVisualize ;;
  if vis then
    resultImg <- session_call P3_infer_visualize_depth
                   (fun ss => p3_infer_visualize_depth X ss img depth_img
                                camera_info) ;;
    publish (visual_pub (toImageMsg X Header.default "bgr8" resultImg)) ;;
    end_ <- now ;;
    RCLCPP_INFO_fps (elapsed_ms begin_ end_)
  else
    result <- session_call P3_infer_action_depth
                (fun ss => p3_infer_action_depth X ss img depth_img
                             camera_info) ;;
    output_msg <- defined (localize_fill img depth_msg camera_info result) ;;
    end_ <- now ;;
    RCLCPP_INFO_fps (elapsed_ms begin_ end_) ;;
    publish (localize_pub
               (set_process_time output_msg (elapsed_ms begin_ end_))).

Definition localize_callback (msg depth_msg : Image.t)
    (camera_info : CameraInfo.t) : CB unit :=
  if Image.height msg =? 0 then
    RCLCPP_WARN "Input image empty. Discarding."
  else
    img <- cv_bridge_toCvCopy msg "bgr8" ;;
    depth_img <- cv_bridge_toCvCopy depth_msg "16UC1" ;;
    init_or_check img ;;
    begin_ <- now ;;
    localize_dispatch img depth_img depth_msg camera_info begin_.

(** *** [Processor::Processor] *)

Inductive Callback := cb_image_callback | cb_localize_callback.

(** What the constructor leaves behind: the plain subscriptions (topic,
    queue depth, callback), the publishers (topic, queue depth), the
    topics handed to the three [message_filters::Subscriber] members, the
    number of [subscribe()] calls made on them, and the callbacks
    registered on [sync_]. *)
Record Node := mkNode {
  subscriptions : list (string * Z * Callback);
  publishers : list (string * Z);
  filter_topics : list string;
  filter_subscribe_calls : nat;
  sync_callbacks : list Callback
}.

Definition Processor_ctor (agent : EPDContainer) : Node :=
  let filter_topics :=
    ["/camera/color/image_raw";
     "/camera/aligned_depth_to_color/image_raw";
     "/camera/color/camera_info"] in
  let image_sub := ("/processor/image_input", 10, cb_image_callback) in
  let pubs :=
    [("/processor/output", 10);
     ("/processor/epd_p1_output", 10);
     ("/processor/epd_p2_output", 10);
     ("/processor/epd_p3_output", 10);
     ("/processor/epd_localize_output", 10)] in
  if useCaseMode agent =? 3 then
    mkNode [image_sub] pubs filter_topics 3 [cb_localize_callback]
  else
    mkNode [image_sub] pubs filter_topics 0 [].

Definition Callback_eqb (a b : Callback) : bool :=
  match a, b with
  | cb_image_callback, cb_image_callback => true
  | cb_localize_callback, cb_localize_callback => true
  | _, _ => false
  end.

(** The single-stream route is active when some subscription delivers to
    [image_callback]; the synchronized route when [localize_callback] is
    registered on the synchronizer. *)
Definition single_stream_active (n : Node) : bool :=
  existsb (fun sub => Callback_eqb (snd sub) cb_image_callback)
    (subscriptions n).

Definition synchronized_active (n : Node) : bool :=
  existsb (fun cb => Callback_eqb cb cb_localize_callback)
    (sync_callbacks n).

(** *** Arrivals and runs *)

(** What the executor can hand to the node: a frame on the single-stream
    topic, or a tuple emitted by the synchronizer. *)
Inductive Arrival :=
| Frame (msg : Image.t)
| Tuple (msg depth_msg : Image.t) (camera_info : CameraInfo.t).

Definition primary (a : Arrival) : Image.t :=
  match a with
  | Frame msg => msg
  | Tuple msg _ _ => msg
  end.

(** The callback an arrival invokes, whatever route is configured. *)
Definition handle (a : Arrival) : CB unit :=
  match a with
  | Frame msg => image_callback msg
  | Tuple msg depth_msg camera_info =>
      localize_callback msg depth_msg camera_info
  end.

(** Delivery through a constructed node: an arrival on a route that is
    not active invokes nothing. *)
Definition deliver (n : Node) (a : Arrival) : CB unit :=
  match a with
  | Frame _ => if single_stream_active n then handle a else ret tt
  | Tuple _ _ _ => if synchronized_active n then handle a else ret tt
  end.

(** A process run: arrivals are handled one after the other; an exception
    that leaves a callback is caught nowhere in the node, so it ends the
    run and the remaining arrivals are never handled. *)
Fixpoint run (arrivals : list Arrival) : CB unit :=
  match arrivals with
  | [] => ret tt
  | a :: rest => handle a ;; run rest
  end.

(** *** Reading a trace *)

Definition published (t : list Event) : list Output :=
  flat_map (fun e => match e with EvPublish o => [o] | _ => [] end) t.

Definition inferences (t : list Event) : list InferOp :=
  flat_map (fun e => match e with EvInfer op _ => [op] | _ => [] end) t.

Definition constructions (t : list Event) : list (Z * Z) :=
  flat_map (fun e => match e with EvInit w h => [(w, h)] | _ => [] end) t.

Definition warnings (t : list Event) : list string :=
  flat_map (fun e => match e with EvWarn s => [s] | _ => [] end) t.

End Processor.

(** ** A concrete set of collaborators

    Used to evaluate the callbacks on explicit inputs.  Bounding boxes hold
    integers, converted to [uint32] by wrap-around; the session state counts
    the inference calls made; decoding keeps the message's dimensions and
    rejects a message without an encoding; [broken] makes every inference
    call throw. *)
Module Fixture.

Definition uint32 (v : Z) : Z := v mod 2 ^ 32.

Definition decode (msg : Image.t) (enc : string) : exn + Mat.t :=
  if String.eqb (Image.encoding msg) "" then
    inl (foreign_error "cv_bridge" "unsupported encoding")
  else
    inr (Mat.mk (Image.height msg) (Image.width msg) (Image.data msg)).

Definition encode (h : Header.t) (enc : string) (m : Mat.t) : Image.t :=
  Image.mk h (Mat.rows m) (Mat.cols m) enc (Mat.cols m) (Mat.pixels m).

Definition ort_error : exn := foreign_error "onnxruntime" "inference failed".

Definition answer {R : Type} (broken : bool) (r : R) (calls : nat)
  : (exn + R) * nat :=
  (if broken then inl ort_error else inr r, S calls).

Definition detection : EPDObjectDetection.t Z :=
  EPDObjectDetection.mk 2 [7; 3] [1061997773; 1056964608]
    [[10; 20; 50; 80]; [0; 0; 4; 4]]
    [Mat.mk 2 2 [0; 1; 1; 0]; Mat.mk 1 1 [1]].

Definition box : RegionOfInterest.t :=
  RegionOfInterest.mk 10 20 60 40 false.

Definition localization : EPDObjectLocalization.t :=
  EPDObjectLocalization.mk 1
    [LocalizedObject.mk "bolt" (Point.mk 1 2 3) box 4 5 6].

Definition collaborators (broken : bool) : Extern nat Z :=
  {| coord_sub := Z.sub;
     coord_to_uint32 := uint32;
     toCvCopy := decode;
     toImageMsg := encode;
     ort_initORTSessionHandler := fun _ _ => inr O;
     p1_infer := fun calls _ => answer broken ["cat"] calls;
     p2_infer_visualize := fun calls img => answer broken img calls;
     p2_infer_action := fun calls _ => answer broken detection calls;
     p3_infer_visualize := fun calls img => answer broken img calls;
     p3_infer_action := fun calls _ => answer broken detection calls;
     p3_infer_visualize_depth :=
       fun calls img _ _ => answer broken img calls;
     p3_infer_action_depth :=
       fun calls _ _ _ => answer broken localization calls;
     clock := fun n => Z.of_nat n * 5000000 |}.

Definition frame (w h : Z) : Image.t :=
  Image.mk Header.default h w "rgb8" (3 * w) [].

Definition depth (w h : Z) : Image.t :=
  Image.mk Header.default h w "16UC1" (2 * w) [].

Definition calibration : CameraInfo.t :=
  CameraInfo.mk 480 640 "plumb_bob" [].

(** A node configured with the given tier, mode and use case. *)
Definition agent (init : bool) (w h tier : Z) (vis : bool) (use : Z)
  : EPDContainer :=
  mkEPDContainer init w h tier vis use.

Definition fresh (tier : Z) (vis : bool) : State nat :=
  mkState (agent false 0 0 tier vis 0) O O.

Definition locked (w h tier : Z) (vis : bool) : State nat :=
  mkState (agent true w h tier vis 0) O O.

End Fixture.

(** ** Projections of a callback's result *)

Definition outcome_of {S A : Type} (r : Outcome A * S * list Event)
  : Outcome A := fst (fst r).
Definition state_of {S A : Type} (r : Outcome A * S * list Event) : S :=
  snd (fst r).
Definition trace_of {S A : Type} (r : Outcome A * S * list Event)
  : list Event := snd r.

(** The state after one more clock reading. *)
Definition tick {Session : Type} (s : State Session) : State Session :=
  mkState (ortAgent_ s) (sessions s) (S (clock_reads s)).

(** [ortAgent_] after [setFrameDimension(img.cols, img.rows)]. *)
Definition sized (a : EPDContainer) (img : Mat.t) : EPDContainer :=
  mkEPDContainer (initialized a) (Mat.cols img) (Mat.rows img)
    (precision_level a) (visualize a) (useCaseMode a).

(** [ortAgent_] after the whole initialisation branch. *)
Definition locked_to (a : EPDContainer) (img : Mat.t) : EPDContainer :=
  mkEPDContainer true (Mat.cols img) (Mat.rows img)
    (precision_level a) (visualize a) (useCaseMode a).

(** The mismatch test of lines 189 and 276. *)
Definition dimension_changed (a : EPDContainer) (img : Mat.t) : bool :=
  negb (lockedWidth a =? Mat.cols img) && negb (lockedHeight a =? Mat.rows img).

(** An arrival whose images all convert, the primary one to [img]. *)
Definition decodes {Session Coord : Type} (X : Extern Session Coord)
    (a : Arrival) (img : Mat.t) : Prop :=
  match a with
  | Frame msg => toCvCopy X msg "bgr8" = inr img
  | Tuple msg depth_msg _ =>
      toCvCopy X msg "bgr8" = inr img /\
      exists depth_img, toCvCopy X depth_msg "16UC1" = inr depth_img
  end.

(** A detection result whose class, score and box vectors hold at least
    [data_size] entries, each of the first [data_size] boxes having its four
    coordinates: what the tier-2 loop reads. *)
Definition boxes_in_range {Coord : Type} (r : EPDObjectDetection.t Coord)
  : Prop :=
  let n := EPDObjectDetection.data_size r in
  (n <= List.length (EPDObjectDetection.classIndices r))%nat /\
  (n <= List.length (EPDObjectDetection.scores r))%nat /\
  (n <= List.length (EPDObjectDetection.bboxes r))%nat /\
  forall i b, (i < n)%nat ->
    nth_error (EPDObjectDetection.bboxes r) i = Some b ->
    (4 <= List.length b)%nat.

(** The same with at least [data_size] masks: what the tier-3 loop reads. *)
Definition masks_in_range {Coord : Type} (r : EPDObjectDetection.t Coord)
  : Prop :=
  boxes_in_range r /\
  (EPDObjectDetection.data_size r
   <= List.length (EPDObjectDetection.masks r))%nat.

(** The reading of "exactly one route is active" for a configuration. *)
Definition routes_exclusive (agent : EPDContainer) : Prop :=
  let n := Processor_ctor agent in
  if useCaseMode agent =? 3 then
    synchronized_active n = true /\ single_stream_active n = false
  else
    single_stream_active n = true /\ synchronized_active n = false.

(** An arrival one of whose conversions throws [e]: the primary image, or
    (on the synchronized route) the depth image after the primary one has
    converted. *)
Definition decode_fails {Session Coord : Type} (X : Extern Session Coord)
    (a : Arrival) (e : exn) : Prop :=
  match a with
  | Frame msg => toCvCopy X msg "bgr8" = inl e
  | Tuple msg depth_msg _ =>
      toCvCopy X msg "bgr8" = inl e \/
      ((exists img, toCvCopy X msg "bgr8" = inr img) /\
       toCvCopy X depth_msg "16UC1" = inl e)
  end.

(** A state that differs from [s] in the configured tier only. *)
Definition with_precision_level {Session : Type} (s : State Session)
    (tier : Z) : State Session :=
  let a := ortAgent_ s in
  mkState
    (mkEPDContainer (initialized a) (lockedWidth a) (lockedHeight a) tier
       (visualize a) (useCaseMode a))
    (sessions s) (clock_reads s).

(** A state that differs from [s] in the visualize flag only. *)
Definition with_visualize {Session : Type} (s : State Session) (vis : bool)
  : State Session :=
  let a := ortAgent_ s in
  mkState
    (mkEPDContainer (initialized a) (lockedWidth a) (lockedHeight a)
       (precision_level a) vis (useCaseMode a))
    (sessions s) (clock_reads s).

(** What a published message says about the configuration, on the
    single-stream route: the channel is the one of the tier and mode. *)
Definition single_stream_channel (a : EPDContainer) (o : Output) : Prop :=
  match o with
  | p1_pub _ => precision_level a = 1
  | p2_pub _ => precision_level a = 2 /\ visualize a = false
  | p3_pub _ => precision_level a = 3 /\ visualize a = false
  | visual_pub _ =>
      (precision_level a = 2 \/ precision_level a = 3) /\ visualize a = true
  | localize_pub _ => False
  end.

(** The same on the synchronized route. *)
Definition synchronized_channel (a : EPDContainer) (o : Output) : Prop :=
  match o with
  | visual_pub _ => visualize a = true
  | localize_pub _ => visualize a = false
  | _ => False
  end.

(** Collaborators whose engine construction always throws. *)
Definition engine_error : exn := foreign_error "onnxruntime" "model not loaded".

Definition no_engine : Extern nat Z :=
  let X := Fixture.collaborators false in
  {| coord_sub := coord_sub X;
     coord_to_uint32 := coord_to_uint32 X;
     toCvCopy := toCvCopy X;
     toImageMsg := toImageMsg X;
     ort_initORTSessionHandler := fun _ _ => inl engine_error;
     p1_infer := p1_infer X;
     p2_infer_visualize := p2_infer_visualize X;
     p2_infer_action := p2_infer_action X;
     p3_infer_visualize := p3_infer_visualize X;
     p3_infer_action := p3_infer_action X;
     p3_infer_visualize_depth := p3_infer_visualize_depth X;
     p3_infer_action_depth := p3_infer_action_depth X;
     clock := clock X |}.

(** Collaborators whose engine can only be built for frames at most 400
    pixels wide. *)
Definition narrow_engine : Extern nat Z :=
  let X := Fixture.collaborators false in
  {| coord_sub := coord_sub X;
     coord_to_uint32 := coord_to_uint32 X;
     toCvCopy := toCvCopy X;
     toImageMsg := toImageMsg X;
     ort_initORTSessionHandler :=
       fun a _ => if lockedWidth a <=? 400 then inr O else inl engine_error;
     p1_infer := p1_infer X;
     p2_infer_visualize := p2_infer_visualize X;
     p2_infer_action := p2_infer_action X;
     p3_infer_visualize := p3_infer_visualize X;
     p3_infer_action := p3_infer_action X;
     p3_infer_visualize_depth := p3_infer_visualize_depth X;
     p3_infer_action_depth := p3_infer_action_depth X;
     clock := clock X |}.

(** The record the sample localization result is published as. *)
Definition sample_localization_record : EPDObjectLocalizationMsg.t :=
  {| EPDObjectLocalizationMsg.header := Header.default;
     EPDObjectLocalizationMsg.frame_width := 640;
     EPDObjectLocalizationMsg.frame_height := 480;
     EPDObjectLocalizationMsg.depth_image := Fixture.depth 640 480;
     EPDObjectLocalizationMsg.camera_info := Fixture.calibration;
     EPDObjectLocalizationMsg.num_objects := 1;
     EPDObjectLocalizationMsg.objects :=
       [LocalizedObject.mk "bolt" (Point.mk 1 2 3) Fixture.box 4 5 6];
     EPDObjectLocalizationMsg.roi_array := [Fixture.box];
     EPDObjectLocalizationMsg.process_time := 5 |}.

(** The box the records are meant to carry for a detection
    [(x1, y1, x2, y2)]. *)
Definition box_of_corners (x1 y1 x2 y2 : Z) : RegionOfInterest.t :=
  {| RegionOfInterest.x_offset := x1;
     RegionOfInterest.y_offset := y1;
     RegionOfInterest.height := y2 - y1;
     RegionOfInterest.width := x2 - x1;
     RegionOfInterest.do_rectify := false |}.

(** A result with one detection whose second corner lies left of the
    first. *)
Definition reversed_detection : EPDObjectDetection.t Z :=
  EPDObjectDetection.mk 1 [7] [1061997773] [[50; 20; 10; 80]] [].

(** ** Basic facts *)

Ltac break_match :=
  match goal with
  | |- context [match ?x with _ => _ end] => destruct x eqn:?
  | H : context [match ?x with _ => _ end] |- _ => destruct x eqn:?
  end.

Ltac invert_pairs :=
  repeat match goal with
         | H : (_, _) = (_, _) |- _ => inversion H; clear H; subst
         | H : Val _ = Val _ |- _ => inversion H; clear H; subst
         | H : Thrown _ = Thrown _ |- _ => inversion H; clear H; subst
         | H : Val _ = Thrown _ |- _ => discriminate H
         | H : Thrown _ = Val _ |- _ => discriminate H
         | H : Undefined = _ |- _ => discriminate H
         | H : _ = Undefined |- _ => discriminate H
         end.

Ltac cases_cb := repeat (break_match; simpl in *; invert_pairs).

Ltac unfold_cb :=
  unfold image_callback, localize_callback, init_or_check, tier_switch,
    localize_dispatch, isInit, getWidth, getHeight, isVisualize,
    get_precision_level, setFrameDimension, setInitBoolean,
    initORTSessionHandler, session_call, cv_bridge_toCvCopy, now, publish,
    RCLCPP_WARN, RCLCPP_INFO_fps, defined, bind, ret, throw, undefined,
    emit, get_agent, set_agent in *.

Lemma published_app (t1 t2 : list Event) :
  published (t1 ++ t2) = published t1 ++ published t2.
Proof. unfold published. apply flat_map_app. Qed.

Lemma inferences_app (t1 t2 : list Event) :
  inferences (t1 ++ t2) = inferences t1 ++ inferences t2.
Proof. unfold inferences. apply flat_map_app. Qed.

Lemma constructions_app (t1 t2 : list Event) :
  constructions (t1 ++ t2) = constructions t1 ++ constructions t2.
Proof. unfold constructions. apply flat_map_app. Qed.

Section Facts.
Context {Session Coord : Type} (X : Extern Session Coord).

(** What the initialise-or-check block does, case by case. *)
Lemma init_or_check_eq (img : Mat.t) (s : State Session) :
  init_or_check X img s =
    if initialized (ortAgent_ s) then
      if dimension_changed (ortAgent_ s) img then
        (Thrown (runtime_error "Input camera changed. Please restart."),
         s, [])
      else (Val tt, s, [])
    else
      let a := sized (ortAgent_ s) img in
      let ev := [EvInit (Mat.cols img) (Mat.rows img)] in
      match ort_initORTSessionHandler X a (sessions s) with
      | inr ss =>
          (Val tt, mkState (locked_to (ortAgent_ s) img) ss (clock_reads s),
           ev)
      | inl e => (Thrown e, mkState a (sessions s) (clock_reads s), ev)
      end.
Proof.
  destruct s as [a ss n]. unfold_cb. unfold dimension_changed. simpl.
  destruct (initialized a); simpl.
  - destruct (negb (lockedWidth a =? Mat.cols img)
              && negb (lockedHeight a =? Mat.rows img)); reflexivity.
  - unfold sized, locked_to.
    destruct (ort_initORTSessionHandler X _ ss); reflexivity.
Qed.

(** [image_callback] on a frame that is not empty and converts. *)
Lemma image_callback_eq (msg : Image.t) (img : Mat.t) (s : State Session) :
  Image.height msg <> 0 ->
  toCvCopy X msg "bgr8" = inr img ->
  image_callback X msg s =
    match init_or_check X img s with
    | (Val _, s1, t1) =>
        match tier_switch X img (tick s1) with
        | (Val _, s2, t2) =>
            (Val tt, tick s2,
             t1 ++ t2 ++
             [EvFps (elapsed_ms (clock X (clock_reads s1))
                       (clock X (clock_reads s2)))])
        | (Thrown e, s2, t2) => (Thrown e, s2, t1 ++ t2)
        | (Undefined, s2, t2) => (Undefined, s2, t1 ++ t2)
        end
    | (Thrown e, s1, t1) => (Thrown e, s1, t1)
    | (Undefined, s1, t1) => (Undefined, s1, t1)
    end.
Proof.
  intros Hh Hd. unfold image_callback.
  apply Z.eqb_neq in Hh. rewrite Hh.
  unfold cv_bridge_toCvCopy. rewrite Hd.
  unfold bind at 1. unfold ret at 1.
  unfold bind at 1.
  destruct (init_or_check X img s) as [[[u | e |] s1] t1]; try reflexivity.
  simpl. unfold bind at 1. unfold now at 1. fold (tick s1).
  unfold bind at 1.
  destruct (tier_switch X img (tick s1)) as [[[u2 | e |] s2] t2];
    reflexivity.
Qed.

(** [localize_callback] on a tuple whose primary image is not empty and whose
    two images convert. *)
Lemma localize_callback_eq (msg depth_msg : Image.t) (c : CameraInfo.t)
    (img depth_img : Mat.t) (s : State Session) :
  Image.height msg <> 0 ->
  toCvCopy X msg "bgr8" = inr img ->
  toCvCopy X depth_msg "16UC1" = inr depth_img ->
  localize_callback X msg depth_msg c s =
    match init_or_check X img s with
    | (Val _, s1, t1) =>
        let '(o, s2, t2) :=
          localize_dispatch X img depth_img depth_msg c
            (clock X (clock_reads s1)) (tick s1) in
        (o, s2, t1 ++ t2)
    | (Thrown e, s1, t1) => (Thrown e, s1, t1)
    | (Undefined, s1, t1) => (Undefined, s1, t1)
    end.
Proof.
  intros Hh Hd Hdd. unfold localize_callback.
  apply Z.eqb_neq in Hh. rewrite Hh.
  unfold cv_bridge_toCvCopy. rewrite Hd, Hdd.
  unfold bind at 1. unfold ret at 1.
  unfold bind at 1. unfold ret at 1.
  unfold bind at 1.
  destruct (init_or_check X img s) as [[[u | e |] s1] t1]; try reflexivity.
  simpl. unfold bind at 1. unfold now at 1. fold (tick s1).
  destruct (localize_dispatch X img depth_img depth_msg c
              (clock X (clock_reads s1)) (tick s1)) as [[o s2] t2].
  reflexivity.
Qed.

(** The dispatch blocks never touch the flags of [ortAgent_] and never
    construct the engine. *)
Lemma tier_switch_agent (img : Mat.t) (s : State Session) :
  ortAgent_ (state_of (tier_switch X img s)) = ortAgent_ s /\
  constructions (trace_of (tier_switch X img s)) = [].
Proof.
  unfold_cb. destruct s as [a ss n]. simpl.
  cases_cb; auto.
Qed.

Lemma localize_dispatch_agent (img depth_img : Mat.t) (depth_msg : Image.t)
    (c : CameraInfo.t) (b : Z) (s : State Session) :
  ortAgent_ (state_of (localize_dispatch X img depth_img depth_msg c b s))
    = ortAgent_ s /\
  constructions
    (trace_of (localize_dispatch X img depth_img depth_msg c b s)) = [].
Proof.
  unfold_cb. destruct s as [a ss n]. simpl.
  cases_cb; auto.
Qed.

End Facts.

(** ** Early exits *)

Section Exits.
Context {Session Coord : Type} (X : Extern Session Coord).

(** The empty-frame guard of lines 165-168 and 256-259. *)
Lemma handle_empty (a : Arrival) (s : State Session) :
  Image.height (primary a) = 0 ->
  handle X a s = (Val tt, s, [EvWarn "Input image empty. Discarding."]).
Proof.
  intros Hh.
  destruct a as [msg | msg depth_msg c]; simpl in Hh |- *;
    [unfold image_callback | unfold localize_callback];
    rewrite Hh; reflexivity.
Qed.

(** A conversion that throws ends the callback before anything else. *)
Lemma image_callback_no_decode (msg : Image.t) (e : exn) (s : State Session) :
  Image.height msg <> 0 ->
  toCvCopy X msg "bgr8" = inl e ->
  image_callback X msg s = (Thrown e, s, []).
Proof.
  intros Hh Hd. unfold image_callback, cv_bridge_toCvCopy.
  apply Z.eqb_neq in Hh. rewrite Hh, Hd. reflexivity.
Qed.

Lemma localize_callback_no_decode (msg depth_msg : Image.t)
    (c : CameraInfo.t) (e : exn) (s : State Session) :
  Image.height msg <> 0 ->
  toCvCopy X msg "bgr8" = inl e \/
  ((exists img, toCvCopy X msg "bgr8" = inr img) /\
   toCvCopy X depth_msg "16UC1" = inl e) ->
  localize_callback X msg depth_msg c s = (Thrown e, s, []).
Proof.
  intros Hh Hd. unfold localize_callback, cv_bridge_toCvCopy.
  apply Z.eqb_neq in Hh. rewrite Hh.
  destruct Hd as [Hd | [[img Hd] Hdd]]; rewrite Hd; [| rewrite Hdd];
    reflexivity.
Qed.

End Exits.

(** ** The dimension check *)

(** Once the session is initialised, the block throws exactly when the
    width and the height both differ from the locked ones. *)
Lemma init_or_check_initialized {Session Coord : Type}
    (X : Extern Session Coord) (img : Mat.t) (s : State Session) :
  initialized (ortAgent_ s) = true ->
  init_or_check X img s =
    if negb (lockedWidth (ortAgent_ s) =? Mat.cols img)
       && negb (lockedHeight (ortAgent_ s) =? Mat.rows img)
    then (Thrown (runtime_error "Input camera changed. Please restart."),
          s, [])
    else (Val tt, s, []).
Proof.
  intros Hi. rewrite init_or_check_eq, Hi. reflexivity.
Qed.

(** C1. The fatal path is required as soon as the width or the height of a
    frame differs from the locked one.  On a session locked to 640x480, a
    640x240 frame on the single-stream route and a 320x480 tuple on the
    synchronized route are both processed to the end: the callback returns
    normally and publishes a record. *)
Theorem C1_single_dimension_change_is_processed :
  let X := Fixture.collaborators false in
  let s := Fixture.locked 640 480 1 false in
  let single := image_callback X (Fixture.frame 640 240) s in
  let synced :=
    localize_callback X (Fixture.frame 320 480) (Fixture.depth 320 480)
      Fixture.calibration s in
  outcome_of single = Val tt /\
  published (trace_of single)
    = [p1_pub {| EPDImageClassification.object_names := ["cat"] |}] /\
  outcome_of synced = Val tt /\
  List.length (published (trace_of synced)) = 1%nat /\
  lockedWidth (ortAgent_ (state_of synced)) = 640 /\
  lockedHeight (ortAgent_ (state_of single)) = 480.
Proof.
  vm_compute. repeat split; reflexivity.
Qed.

(** ** Route selection *)

(** With [useCaseMode == 3] the constructor has subscribed
    [image_callback] as well: exclusivity fails. *)
Lemma C2_localization_keeps_single_stream :
  ~ routes_exclusive (Fixture.agent false 0 0 3 false 3).
Proof.
  unfold routes_exclusive. simpl. intros [_ H]. discriminate H.
Qed.

(** C2, amended.  The single-stream route is active for every
    configuration; the synchronized route is active exactly when
    [useCaseMode == 3].  So any other mode has the single-stream route
    alone, a tuple then reaching no callback, and the localization mode has
    both. *)
Theorem C2_routes_selected_by_useCaseMode {Session Coord : Type}
    (X : Extern Session Coord) (agent : EPDContainer) :
  let n := Processor_ctor agent in
  single_stream_active n = true /\
  synchronized_active n = (useCaseMode agent =? 3) /\
  (forall msg, deliver X n (Frame msg) = image_callback X msg) /\
  (forall msg depth_msg c,
     deliver X n (Tuple msg depth_msg c) =
       if useCaseMode agent =? 3
       then localize_callback X msg depth_msg c
       else ret tt).
Proof.
  unfold Processor_ctor, deliver.
  destruct (useCaseMode agent =? 3); simpl; repeat split; reflexivity.
Qed.

(** ** The empty-frame guard *)

(** C4. An arrival whose primary image has height 0, on either route, makes
    the callback log one warning and return: the state (initialized flag,
    locked dimensions, sessions) is the one it started from, and the trace
    holds no engine construction, no inference call and no publication. *)
Theorem C4_empty_frame_is_discarded {Session Coord : Type}
    (X : Extern Session Coord) (a : Arrival) (s : State Session) :
  Image.height (primary a) = 0 ->
  handle X a s = (Val tt, s, [EvWarn "Input image empty. Discarding."]) /\
  constructions (trace_of (handle X a s)) = [] /\
  inferences (trace_of (handle X a s)) = [] /\
  published (trace_of (handle X a s)) = [].
Proof.
  intros Hh. rewrite (handle_empty X a s Hh). repeat split.
Qed.

Lemma C4_empty_frame_is_discarded_witness :
  Image.height
    (primary (Tuple (Fixture.frame 640 0) (Fixture.depth 640 480)
                Fixture.calibration)) = 0 /\
  handle (Fixture.collaborators false)
    (Tuple (Fixture.frame 640 0) (Fixture.depth 640 480) Fixture.calibration)
    (Fixture.fresh 3 false)
  = (Val tt, Fixture.fresh 3 false,
     [EvWarn "Input image empty. Discarding."]).
Proof.
  split; [reflexivity |].
  apply (C4_empty_frame_is_discarded (Fixture.collaborators false)
           (Tuple (Fixture.frame 640 0) (Fixture.depth 640 480)
              Fixture.calibration)
           (Fixture.fresh 3 false)).
  reflexivity.
Defined.

(** ** The formatting loops *)

Lemma skipn_nth_error {A : Type} (l : list A) (n : nat) (x : A) :
  nth_error l n = Some x -> skipn n l = x :: skipn (S n) l.
Proof.
  revert l. induction n as [| n IH]; intros [| y l] H; simpl in H;
    try discriminate.
  - inversion H. reflexivity.
  - simpl. rewrite (IH l H). reflexivity.
Qed.

Lemma nth_error_in_range {A : Type} (l : list A) (n : nat) :
  (n < List.length l)%nat -> exists x, nth_error l n = Some x.
Proof.
  intros H. apply nth_error_Some in H.
  destruct (nth_error l n) as [x |]; [exists x; reflexivity | contradiction].
Qed.

Section Loops.
Context {Session Coord : Type} (X : Extern Session Coord).

Lemma roi_of_bbox_four (x1 y1 x2 y2 : Coord) (rest : list Coord) :
  roi_of_bbox X (x1 :: y1 :: x2 :: y2 :: rest) =
    Some {| RegionOfInterest.x_offset := coord_to_uint32 X x1;
            RegionOfInterest.y_offset := coord_to_uint32 X y1;
            RegionOfInterest.height := coord_to_uint32 X (coord_sub X y2 y1);
            RegionOfInterest.width := coord_to_uint32 X (coord_sub X x2 x1);
            RegionOfInterest.do_rectify := false |}.
Proof. reflexivity. Qed.

Lemma roi_of_bbox_defined (b : list Coord) :
  (4 <= List.length b)%nat -> exists roi, roi_of_bbox X b = Some roi.
Proof.
  destruct b as [| x1 [| y1 [| x2 [| y2 rest]]]]; simpl; try lia.
  intros _. eexists. apply roi_of_bbox_four.
Qed.

(** What [count] rounds of the tier-3 loop append to the record. *)
Lemma p3_loop_appends (r : EPDObjectDetection.t Coord) (count : nat) :
  forall (start : nat) (acc m : EPDObjectDetectionMsg.t),
    for_loop start count (p3_body X r) acc = Some m ->
    exists cs ss bs ms,
      EPDObjectDetectionMsg.class_indices m
        = EPDObjectDetectionMsg.class_indices acc ++ cs /\
      EPDObjectDetectionMsg.scores m
        = EPDObjectDetectionMsg.scores acc ++ ss /\
      EPDObjectDetectionMsg.bboxes m
        = EPDObjectDetectionMsg.bboxes acc ++ bs /\
      EPDObjectDetectionMsg.masks m
        = EPDObjectDetectionMsg.masks acc ++ ms /\
      List.length cs = count /\ List.length ss = count /\
      List.length bs = count /\ List.length ms = count /\
      forall i, (i < count)%nat ->
        nth_error bs i =
          obind (nth_error (EPDObjectDetection.bboxes r) (start + i))
            (roi_of_bbox X).
Proof.
  induction count as [| count IH]; intros start acc m H; simpl in H.
  - inversion H; subst. exists [], [], [], [].
    rewrite !app_nil_r. repeat split; try reflexivity. intros i Hi. lia.
  - destruct (p3_body X r start acc) as [acc' |] eqn:E; [| discriminate].
    apply IH in H.
    destruct H as (cs & ss & bs & ms & Hc & Hs & Hb & Hm & Lc & Ls & Lb & Lm & Hn).
    unfold p3_body in E.
    destruct (nth_error (EPDObjectDetection.classIndices r) start)
      as [ci |]; simpl in E; [| discriminate].
    destruct (nth_error (EPDObjectDetection.scores r) start)
      as [sc |]; simpl in E; [| discriminate].
    destruct (nth_error (EPDObjectDetection.bboxes r) start)
      as [bb |] eqn:Ebb; simpl in E; [| discriminate].
    destruct (roi_of_bbox X bb) as [roi |] eqn:Eroi; simpl in E;
      [| discriminate].
    destruct (nth_error (EPDObjectDetection.masks r) start)
      as [mk |]; simpl in E; [| discriminate].
    inversion E; subst acc'; clear E. simpl in Hc, Hs, Hb, Hm.
    exists (ci :: cs), (sc :: ss), (roi :: bs),
      (toImageMsg X Header.default "32FC1" mk :: ms).
    rewrite Hc, Hs, Hb, Hm, <- !app_assoc. simpl.
    repeat split; try reflexivity; try (f_equal; assumption).
    intros [| i] Hi; simpl.
    + rewrite Nat.add_0_r, Ebb. simpl. symmetry. exact Eroi.
    + rewrite Nat.add_succ_r. apply Hn. lia.
Qed.

(** The same for the tier-2 loop, which leaves [masks] alone. *)
Lemma p2_loop_appends (r : EPDObjectDetection.t Coord) (count : nat) :
  forall (start : nat) (acc m : EPDObjectDetectionMsg.t),
    for_loop start count (p2_body X r) acc = Some m ->
    exists cs ss bs,
      EPDObjectDetectionMsg.class_indices m
        = EPDObjectDetectionMsg.class_indices acc ++ cs /\
      EPDObjectDetectionMsg.scores m
        = EPDObjectDetectionMsg.scores acc ++ ss /\
      EPDObjectDetectionMsg.bboxes m
        = EPDObjectDetectionMsg.bboxes acc ++ bs /\
      EPDObjectDetectionMsg.masks m = EPDObjectDetectionMsg.masks acc /\
      List.length cs = count /\ List.length ss = count /\
      List.length bs = count /\
      forall i, (i < count)%nat ->
        nth_error bs i =
          obind (nth_error (EPDObjectDetection.bboxes r) (start + i))
            (roi_of_bbox X).
Proof.
  induction count as [| count IH]; intros start acc m H; simpl in H.
  - inversion H; subst. exists [], [], [].
    rewrite !app_nil_r. repeat split; try reflexivity. intros i Hi. lia.
  - destruct (p2_body X r start acc) as [acc' |] eqn:E; [| discriminate].
    apply IH in H.
    destruct H as (cs & ss & bs & Hc & Hs & Hb & Hm & Lc & Ls & Lb & Hn).
    unfold p2_body in E.
    destruct (nth_error (EPDObjectDetection.classIndices r) start)
      as [ci |]; simpl in E; [| discriminate].
    destruct (nth_error (EPDObjectDetection.scores r) start)
      as [sc |]; simpl in E; [| discriminate].
    destruct (nth_error (EPDObjectDetection.bboxes r) start)
      as [bb |] eqn:Ebb; simpl in E; [| discriminate].
    destruct (roi_of_bbox X bb) as [roi |] eqn:Eroi; simpl in E;
      [| discriminate].
    inversion E; subst acc'; clear E. simpl in Hc, Hs, Hb, Hm.
    exists (ci :: cs), (sc :: ss), (roi :: bs).
    rewrite Hc, Hs, Hb, Hm, <- !app_assoc. simpl.
    repeat split; try reflexivity; try (f_equal; assumption).
    intros [| i] Hi; simpl.
    + rewrite Nat.add_0_r, Ebb. simpl. symmetry. exact Eroi.
    + rewrite Nat.add_succ_r. apply Hn. lia.
Qed.

(** On a well-formed result no round of the tier-3 loop reads out of
    range. *)
Lemma p3_loop_defined (r : EPDObjectDetection.t Coord) (count : nat) :
  forall (start : nat) (acc : EPDObjectDetectionMsg.t),
    (start + count <= EPDObjectDetection.data_size r)%nat ->
    masks_in_range r ->
    exists m, for_loop start count (p3_body X r) acc = Some m.
Proof.
  induction count as [| count IH]; intros start acc Hle Hwf; simpl.
  - eexists. reflexivity.
  - destruct Hwf as ((Hc & Hs & Hb & H4) & Hm).
    destruct (nth_error_in_range (EPDObjectDetection.classIndices r) start)
      as [ci Eci]; [lia |].
    destruct (nth_error_in_range (EPDObjectDetection.scores r) start)
      as [sc Esc]; [lia |].
    destruct (nth_error_in_range (EPDObjectDetection.bboxes r) start)
      as [bb Ebb]; [lia |].
    destruct (nth_error_in_range (EPDObjectDetection.masks r) start)
      as [mk Emk]; [lia |].
    destruct (roi_of_bbox_defined bb) as [roi Eroi].
    { apply (H4 start); [lia | exact Ebb]. }
    unfold p3_body at 1. rewrite Eci, Esc, Ebb. simpl.
    rewrite Eroi. simpl. rewrite Emk. simpl.
    apply IH; [lia | repeat split; assumption].
Qed.

Lemma p2_loop_defined (r : EPDObjectDetection.t Coord) (count : nat) :
  forall (start : nat) (acc : EPDObjectDetectionMsg.t),
    (start + count <= EPDObjectDetection.data_size r)%nat ->
    boxes_in_range r ->
    exists m, for_loop start count (p2_body X r) acc = Some m.
Proof.
  induction count as [| count IH]; intros start acc Hle Hwf; simpl.
  - eexists. reflexivity.
  - destruct Hwf as (Hc & Hs & Hb & H4).
    destruct (nth_error_in_range (EPDObjectDetection.classIndices r) start)
      as [ci Eci]; [lia |].
    destruct (nth_error_in_range (EPDObjectDetection.scores r) start)
      as [sc Esc]; [lia |].
    destruct (nth_error_in_range (EPDObjectDetection.bboxes r) start)
      as [bb Ebb]; [lia |].
    destruct (roi_of_bbox_defined bb) as [roi Eroi].
    { apply (H4 start); [lia | exact Ebb]. }
    unfold p2_body at 1. rewrite Eci, Esc, Ebb. simpl.
    rewrite Eroi. simpl.
    apply IH; [lia | repeat split; assumption].
Qed.

End Loops.

(** ** The tier switch, case by case *)

Section Dispatch.
Context {Session Coord : Type} (X : Extern Session Coord).

Ltac run_switch Hl :=
  unfold tier_switch, get_precision_level, isVisualize, session_call,
    publish, defined, emit, bind, get_agent, ret; simpl;
  rewrite Hl; simpl.

Lemma tier_switch_p1 (img : Mat.t) (s : State Session) names ss :
  precision_level (ortAgent_ s) = 1 ->
  p1_infer X (sessions s) img = (inr names, ss) ->
  tier_switch X img s =
    (Val tt, mkState (ortAgent_ s) ss (clock_reads s),
     [EvInfer P1_infer None;
      EvPublish (p1_pub {| EPDImageClassification.object_names := names |})]).
Proof.
  intros Hl Hi. run_switch Hl. rewrite Hi. reflexivity.
Qed.

Lemma tier_switch_p2_visualize (img : Mat.t) (s : State Session) r ss :
  precision_level (ortAgent_ s) = 2 ->
  visualize (ortAgent_ s) = true ->
  p2_infer_visualize X (sessions s) img = (inr r, ss) ->
  tier_switch X img s =
    (Val tt, mkState (ortAgent_ s) ss (clock_reads s),
     [EvInfer P2_infer_visualize None;
      EvPublish (visual_pub (toImageMsg X Header.default "bgr8" r))]).
Proof.
  intros Hl Hv Hi. run_switch Hl. rewrite Hv. simpl. rewrite Hi. reflexivity.
Qed.

Lemma tier_switch_p3_visualize (img : Mat.t) (s : State Session) r ss :
  precision_level (ortAgent_ s) = 3 ->
  visualize (ortAgent_ s) = true ->
  p3_infer_visualize X (sessions s) img = (inr r, ss) ->
  tier_switch X img s =
    (Val tt, mkState (ortAgent_ s) ss (clock_reads s),
     [EvInfer P3_infer_visualize None;
      EvPublish (visual_pub (toImageMsg X Header.default "bgr8" r))]).
Proof.
  intros Hl Hv Hi. run_switch Hl. rewrite Hv. simpl. rewrite Hi. reflexivity.
Qed.

Lemma tier_switch_p2_action (img : Mat.t) (s : State Session) r ss m :
  precision_level (ortAgent_ s) = 2 ->
  visualize (ortAgent_ s) = false ->
  p2_infer_action X (sessions s) img = (inr r, ss) ->
  p2_fill X r = Some m ->
  tier_switch X img s =
    (Val tt, mkState (ortAgent_ s) ss (clock_reads s),
     [EvInfer P2_infer_action None; EvPublish (p2_pub m)]).
Proof.
  intros Hl Hv Hi Hf. run_switch Hl. rewrite Hv. simpl. rewrite Hi. simpl.
  rewrite Hf. reflexivity.
Qed.

Lemma tier_switch_p3_action (img : Mat.t) (s : State Session) r ss m :
  precision_level (ortAgent_ s) = 3 ->
  visualize (ortAgent_ s) = false ->
  p3_infer_action X (sessions s) img = (inr r, ss) ->
  p3_fill X r = Some m ->
  tier_switch X img s =
    (Val tt, mkState (ortAgent_ s) ss (clock_reads s),
     [EvInfer P3_infer_action None; EvPublish (p3_pub m)]).
Proof.
  intros Hl Hv Hi Hf. run_switch Hl. rewrite Hv. simpl. rewrite Hi. simpl.
  rewrite Hf. reflexivity.
Qed.

(** A tier other than 1, 2 and 3 matches no case of the switch. *)
Lemma tier_switch_no_case (img : Mat.t) (s : State Session) :
  precision_level (ortAgent_ s) <> 1 ->
  precision_level (ortAgent_ s) <> 2 ->
  precision_level (ortAgent_ s) <> 3 ->
  tier_switch X img s = (Val tt, s, []).
Proof.
  intros H1 H2 H3.
  unfold tier_switch, get_precision_level, bind, get_agent, ret. simpl.
  destruct (precision_level (ortAgent_ s)) as [| p | p];
    try reflexivity.
  destruct p as [[p | p |] | [p | p |] |]; try reflexivity; congruence.
Qed.

(** What the initialise-or-check block leaves when it returns: an
    initialised session, the configuration it found, and a trace without
    inference call or publication. *)
Lemma init_or_check_returns (img : Mat.t) (s s1 : State Session) o t1 :
  init_or_check X img s = (o, s1, t1) ->
  precision_level (ortAgent_ s1) = precision_level (ortAgent_ s) /\
  visualize (ortAgent_ s1) = visualize (ortAgent_ s) /\
  useCaseMode (ortAgent_ s1) = useCaseMode (ortAgent_ s) /\
  clock_reads s1 = clock_reads s /\
  published t1 = [] /\ inferences t1 = [] /\ warnings t1 = [] /\
  (o = Val tt -> initialized (ortAgent_ s1) = true).
Proof.
  rewrite init_or_check_eq. intros H.
  destruct (initialized (ortAgent_ s)) eqn:Hi.
  - destruct (dimension_changed (ortAgent_ s) img); inversion H; subst;
      repeat split; intros; try reflexivity; try assumption; discriminate.
  - simpl in H.
    destruct (ort_initORTSessionHandler X _ (sessions s)); inversion H; subst;
      repeat split; intros; try reflexivity; discriminate.
Qed.

End Dispatch.

(** ** Single-stream routing and formatting *)

(** C3. A single-stream frame that passes the empty-frame guard, converts
    and passes the initialise-or-check block publishes, when the inference
    call returns, exactly one message: with tier 1 the label list, whatever
    the visualize flag; with tier 2 or 3 and the visualize flag set the
    annotated image; with tier 2 or 3 and the flag clear the detection
    record of that tier. *)
Theorem C3_tier_routing {Session Coord : Type} (X : Extern Session Coord)
    (msg : Image.t) (img : Mat.t) (s s1 : State Session) (t1 : list Event) :
  Image.height msg <> 0 ->
  toCvCopy X msg "bgr8" = inr img ->
  init_or_check X img s = (Val tt, s1, t1) ->
  let a := ortAgent_ s in
  let t := trace_of (image_callback X msg s) in
  (precision_level a = 1 ->
   forall names ss, p1_infer X (sessions s1) img = (inr names, ss) ->
     published t
       = [p1_pub {| EPDImageClassification.object_names := names |}]) /\
  (precision_level a = 2 -> visualize a = true ->
   forall r ss, p2_infer_visualize X (sessions s1) img = (inr r, ss) ->
     published t = [visual_pub (toImageMsg X Header.default "bgr8" r)]) /\
  (precision_level a = 3 -> visualize a = true ->
   forall r ss, p3_infer_visualize X (sessions s1) img = (inr r, ss) ->
     published t = [visual_pub (toImageMsg X Header.default "bgr8" r)]) /\
  (precision_level a = 2 -> visualize a = false ->
   forall r ss, p2_infer_action X (sessions s1) img = (inr r, ss) ->
     boxes_in_range r ->
     exists m, p2_fill X r = Some m /\ published t = [p2_pub m]) /\
  (precision_level a = 3 -> visualize a = false ->
   forall r ss, p3_infer_action X (sessions s1) img = (inr r, ss) ->
     masks_in_range r ->
     exists m, p3_fill X r = Some m /\ published t = [p3_pub m]).
Proof.
  intros Hh Hd Hic a t. subst a t.
  destruct (init_or_check_returns X img s s1 _ t1 Hic)
    as (Hl & Hv & _ & _ & Hp & _).
  rewrite (image_callback_eq X msg img s Hh Hd), Hic.
  rewrite <- Hl, <- Hv.
  repeat split.
  - intros L names ss Hi.
    rewrite (tier_switch_p1 X img (tick s1) names ss L Hi).
    unfold trace_of. simpl. rewrite published_app, Hp. reflexivity.
  - intros L V r ss Hi.
    rewrite (tier_switch_p2_visualize X img (tick s1) r ss L V Hi).
    unfold trace_of. simpl. rewrite published_app, Hp. reflexivity.
  - intros L V r ss Hi.
    rewrite (tier_switch_p3_visualize X img (tick s1) r ss L V Hi).
    unfold trace_of. simpl. rewrite published_app, Hp. reflexivity.
  - intros L V r ss Hi Hwf.
    destruct (p2_loop_defined X r (EPDObjectDetection.data_size r) 0
                EPDObjectDetectionMsg.default (Nat.le_refl _) Hwf)
      as [m Hm].
    exists m. split; [exact Hm |].
    rewrite (tier_switch_p2_action X img (tick s1) r ss m L V Hi Hm).
    unfold trace_of. simpl. rewrite published_app, Hp. reflexivity.
  - intros L V r ss Hi Hwf.
    destruct (p3_loop_defined X r (EPDObjectDetection.data_size r) 0
                EPDObjectDetectionMsg.default (Nat.le_refl _) Hwf)
      as [m Hm].
    exists m. split; [exact Hm |].
    rewrite (tier_switch_p3_action X img (tick s1) r ss m L V Hi Hm).
    unfold trace_of. simpl. rewrite published_app, Hp. reflexivity.
Qed.

Lemma C3_tier_routing_witness :
  (Image.height (Fixture.frame 640 480) <> 0 /\
   published
     (trace_of (image_callback (Fixture.collaborators false)
                  (Fixture.frame 640 480) (Fixture.fresh 1 true)))
     = [p1_pub {| EPDImageClassification.object_names := ["cat"] |}]) /\
  published
    (trace_of (image_callback (Fixture.collaborators false)
                 (Fixture.frame 640 480) (Fixture.locked 640 480 2 true)))
    = [visual_pub (Fixture.encode Header.default "bgr8"
                     (Mat.mk 480 640 []))].
Proof.
  split.
  - split; [discriminate |].
    refine (proj1 (C3_tier_routing (Fixture.collaborators false)
                     (Fixture.frame 640 480) (Mat.mk 480 640 [])
                     (Fixture.fresh 1 true)
                     (mkState (Fixture.agent true 640 480 1 true 0) O O)
                     [EvInit 640 480] _ _ _) _ ["cat"] 1%nat _);
      first [discriminate | reflexivity].
  - refine (proj1 (proj2 (C3_tier_routing (Fixture.collaborators false)
                     (Fixture.frame 640 480) (Mat.mk 480 640 [])
                     (Fixture.locked 640 480 2 true)
                     (Fixture.locked 640 480 2 true)
                     [] _ _ _)) _ _ (Mat.mk 480 640 []) 1%nat _);
      first [discriminate | reflexivity].
Defined.

(** The region emitted for a detection, in terms of the element type's own
    subtraction and conversion. *)
Lemma emitted_box_formula {Session Coord : Type} (X : Extern Session Coord)
    (result : EPDObjectDetection.t Coord) (m : EPDObjectDetectionMsg.t)
    (i : nat) (x1 y1 x2 y2 : Coord) :
  p2_fill X result = Some m \/ p3_fill X result = Some m ->
  (i < EPDObjectDetection.data_size result)%nat ->
  nth_error (EPDObjectDetection.bboxes result) i = Some [x1; y1; x2; y2] ->
  nth_error (EPDObjectDetectionMsg.bboxes m) i =
    Some {| RegionOfInterest.x_offset := coord_to_uint32 X x1;
            RegionOfInterest.y_offset := coord_to_uint32 X y1;
            RegionOfInterest.height := coord_to_uint32 X (coord_sub X y2 y1);
            RegionOfInterest.width := coord_to_uint32 X (coord_sub X x2 x1);
            RegionOfInterest.do_rectify := false |}.
Proof.
  intros [Hf | Hf] Hi Hb.
  - destruct (p2_loop_appends X result _ _ _ _ Hf)
      as (cs & ss & bs & _ & _ & Hbs & _ & _ & _ & _ & Hn).
    rewrite Hbs. simpl. rewrite (Hn i Hi). simpl. rewrite Hb. reflexivity.
  - destruct (p3_loop_appends X result _ _ _ _ Hf)
      as (cs & ss & bs & ms & _ & _ & Hbs & _ & _ & _ & _ & _ & Hn).
    rewrite Hbs. simpl. rewrite (Hn i Hi). simpl. rewrite Hb. reflexivity.
Qed.

(** On integer coordinates converted by wrap-around, the detection
    [(50, 20, 10, 80)] is emitted with width 4294967256: the box is not
    [(x1, y1, x2 - x1, y2 - y1)]. *)
Lemma C5_reversed_box_wraps :
  exists m roi,
    p2_fill (Fixture.collaborators false) reversed_detection = Some m /\
    nth_error (EPDObjectDetectionMsg.bboxes m) 0 = Some roi /\
    RegionOfInterest.width roi = 4294967256 /\
    roi <> box_of_corners 50 20 10 80.
Proof.
  eexists. eexists. split; [reflexivity |]. split; [reflexivity |].
  split; [reflexivity |]. discriminate.
Qed.

(** C5, amended.  Let the box element type represent the whole numbers
    below [bound] exactly ([repr]): differences of such numbers are exact
    and they convert to [uint32] unchanged.  Then for every result whose
    vectors are in range, a detection [(x1, y1, x2, y2)] with
    [0 <= x1 <= x2] and [0 <= y1 <= y2] below [bound] is emitted in the
    tier-2 record, and in the tier-3 record when the masks are in range
    too, at the same index, as the box [x_offset = x1], [y_offset = y1],
    [width = x2 - x1], [height = y2 - y1]. *)
Theorem C5_box_encoding {Session Coord : Type} (X : Extern Session Coord)
    (repr : Z -> Coord) (bound : Z)
    (result : EPDObjectDetection.t Coord) (i : nat) (x1 y1 x2 y2 : Z) :
  (forall a b, 0 <= b <= a -> a < bound ->
     coord_sub X (repr a) (repr b) = repr (a - b)) ->
  (forall a, 0 <= a < bound -> coord_to_uint32 X (repr a) = a) ->
  boxes_in_range result ->
  (i < EPDObjectDetection.data_size result)%nat ->
  nth_error (EPDObjectDetection.bboxes result) i
    = Some [repr x1; repr y1; repr x2; repr y2] ->
  0 <= x1 <= x2 -> x2 < bound ->
  0 <= y1 <= y2 -> y2 < bound ->
  (exists m,
     p2_fill X result = Some m /\
     nth_error (EPDObjectDetectionMsg.bboxes m) i
       = Some (box_of_corners x1 y1 x2 y2)) /\
  (masks_in_range result ->
   exists m,
     p3_fill X result = Some m /\
     nth_error (EPDObjectDetectionMsg.bboxes m) i
       = Some (box_of_corners x1 y1 x2 y2)).
Proof.
  intros Hsub Hconv Hwf Hi Hb Hx Hxb Hy Hyb.
  assert (E : forall m,
             p2_fill X result = Some m \/ p3_fill X result = Some m ->
             nth_error (EPDObjectDetectionMsg.bboxes m) i
               = Some (box_of_corners x1 y1 x2 y2)).
  { intros m Hm.
    rewrite (emitted_box_formula X result m i _ _ _ _ Hm Hi Hb).
    rewrite (Hsub x2 x1 Hx Hxb), (Hsub y2 y1 Hy Hyb).
    rewrite !Hconv by lia. reflexivity. }
  split.
  - destruct (p2_loop_defined X result (EPDObjectDetection.data_size result)
                0 EPDObjectDetectionMsg.default (Nat.le_refl _) Hwf)
      as [m Hm].
    exists m. split; [exact Hm | apply E; left; exact Hm].
  - intros Hmk.
    destruct (p3_loop_defined X result (EPDObjectDetection.data_size result)
                0 EPDObjectDetectionMsg.default (Nat.le_refl _) Hmk)
      as [m Hm].
    exists m. split; [exact Hm | apply E; right; exact Hm].
Qed.

Lemma C5_box_encoding_witness :
  nth_error (EPDObjectDetection.bboxes Fixture.detection) 0
    = Some [10; 20; 50; 80] /\
  (exists m,
     p2_fill (Fixture.collaborators false) Fixture.detection = Some m /\
     nth_error (EPDObjectDetectionMsg.bboxes m) 0
       = Some (RegionOfInterest.mk 10 20 60 40 false)) /\
  (exists m,
     p3_fill (Fixture.collaborators false) Fixture.detection = Some m /\
     nth_error (EPDObjectDetectionMsg.bboxes m) 0
       = Some (RegionOfInterest.mk 10 20 60 40 false)).
Proof.
  assert (Hwf : masks_in_range Fixture.detection).
  { unfold masks_in_range, boxes_in_range. simpl. repeat split; try lia.
    intros i b Hi Hb.
    destruct i as [| [| i]]; simpl in Hb; try lia;
      inversion Hb; subst; simpl; lia. }
  assert (Hsub : forall a b, 0 <= b <= a -> a < 2 ^ 32 ->
             coord_sub (Fixture.collaborators false) (id a) (id b)
               = id (a - b))
    by (intros; reflexivity).
  assert (Hconv : forall a, 0 <= a < 2 ^ 32 ->
             coord_to_uint32 (Fixture.collaborators false) (id a) = a)
    by (intros a Ha; apply Z.mod_small; exact Ha).
  pose proof (C5_box_encoding (Fixture.collaborators false) id (2 ^ 32)
                Fixture.detection 0 10 20 50 80 Hsub Hconv (proj1 Hwf)
                ltac:(simpl; lia) eq_refl ltac:(lia) ltac:(lia) ltac:(lia)
                ltac:(lia)) as [H2 H3].
  split; [reflexivity |]. split; [exact H2 | exact (H3 Hwf)].
Defined.

(** C6. A tier-3 frame processed with the visualize flag clear, whose
    inference call returns a result with [data_size] entries in each of its
    vectors, publishes one record on the tier-3 channel whose masks, boxes,
    class indices and scores all have length [data_size]. *)
Theorem C6_tier3_parallel_arrays {Session Coord : Type}
    (X : Extern Session Coord) (msg : Image.t) (img : Mat.t)
    (s s1 : State Session) (t1 : list Event)
    (r : EPDObjectDetection.t Coord) (ss : Session) :
  Image.height msg <> 0 ->
  toCvCopy X msg "bgr8" = inr img ->
  init_or_check X img s = (Val tt, s1, t1) ->
  precision_level (ortAgent_ s) = 3 ->
  visualize (ortAgent_ s) = false ->
  p3_infer_action X (sessions s1) img = (inr r, ss) ->
  masks_in_range r ->
  exists m,
    published (trace_of (image_callback X msg s)) = [p3_pub m] /\
    List.length (EPDObjectDetectionMsg.masks m)
      = EPDObjectDetection.data_size r /\
    List.length (EPDObjectDetectionMsg.bboxes m)
      = EPDObjectDetection.data_size r /\
    List.length (EPDObjectDetectionMsg.class_indices m)
      = EPDObjectDetection.data_size r /\
    List.length (EPDObjectDetectionMsg.scores m)
      = EPDObjectDetection.data_size r.
Proof.
  intros Hh Hd Hic Hl Hv Hi Hwf.
  destruct (init_or_check_returns X img s s1 _ t1 Hic)
    as (Hl1 & Hv1 & _ & _ & Hp & _).
  destruct (p3_loop_defined X r (EPDObjectDetection.data_size r) 0
              EPDObjectDetectionMsg.default (Nat.le_refl _) Hwf)
    as [m Hm].
  exists m. split.
  - rewrite (image_callback_eq X msg img s Hh Hd), Hic.
    rewrite <- Hl1 in Hl. rewrite <- Hv1 in Hv.
    rewrite (tier_switch_p3_action X img (tick s1) r ss m Hl Hv Hi Hm).
    unfold trace_of. simpl. rewrite published_app, Hp. reflexivity.
  - destruct (p3_loop_appends X r _ _ _ _ Hm)
      as (cs & sc & bs & ms & Hc & Hs & Hb & Hk & Lc & Ls & Lb & Lk & _).
    rewrite Hc, Hs, Hb, Hk. simpl. repeat split; assumption.
Qed.

Lemma C6_tier3_parallel_arrays_witness :
  masks_in_range Fixture.detection /\
  exists m,
    published
      (trace_of (image_callback (Fixture.collaborators false)
                   (Fixture.frame 640 480) (Fixture.fresh 3 false)))
      = [p3_pub m] /\
    List.length (EPDObjectDetectionMsg.masks m) = 2%nat /\
    List.length (EPDObjectDetectionMsg.bboxes m) = 2%nat /\
    List.length (EPDObjectDetectionMsg.class_indices m) = 2%nat /\
    List.length (EPDObjectDetectionMsg.scores m) = 2%nat.
Proof.
  assert (Hwf : masks_in_range Fixture.detection).
  { unfold masks_in_range, boxes_in_range. simpl. repeat split; try lia.
    intros i b Hi Hb.
    destruct i as [| [| i]]; simpl in Hb; try lia;
      inversion Hb; subst; simpl; lia. }
  split; [exact Hwf |].
  apply (C6_tier3_parallel_arrays (Fixture.collaborators false)
           (Fixture.frame 640 480) (Mat.mk 480 640 [])
           (Fixture.fresh 3 false)
           (mkState (Fixture.agent true 640 480 3 false 0) O O)
           [EvInit 640 480] Fixture.detection 1%nat);
    first [discriminate | reflexivity | exact Hwf].
Defined.

(** ** The synchronized route *)

Section Localization.
Context {Session Coord : Type} (X : Extern Session Coord).

Lemma LocalizedObject_copy (o : LocalizedObject.t) :
  {| LocalizedObject.name := LocalizedObject.name o;
     LocalizedObject.pos := LocalizedObject.pos o;
     LocalizedObject.roi := LocalizedObject.roi o;
     LocalizedObject.breadth := LocalizedObject.breadth o;
     LocalizedObject.length := LocalizedObject.length o;
     LocalizedObject.height := LocalizedObject.height o |} = o.
Proof. destruct o. reflexivity. Qed.

(** [count] rounds of the localization loop append the objects
    [start .. start + count - 1] of the result, and their regions, and
    change no other field. *)
Lemma localize_loop_appends (r : EPDObjectLocalization.t) (count : nat) :
  forall (start : nat) (acc : EPDObjectLocalizationMsg.t),
    (start + count <= List.length (EPDObjectLocalization.objects r))%nat ->
    let objs := firstn count (skipn start (EPDObjectLocalization.objects r)) in
    for_loop start count (@localize_body r) acc =
      Some {| EPDObjectLocalizationMsg.header :=
                EPDObjectLocalizationMsg.header acc;
              EPDObjectLocalizationMsg.frame_width :=
                EPDObjectLocalizationMsg.frame_width acc;
              EPDObjectLocalizationMsg.frame_height :=
                EPDObjectLocalizationMsg.frame_height acc;
              EPDObjectLocalizationMsg.depth_image :=
                EPDObjectLocalizationMsg.depth_image acc;
              EPDObjectLocalizationMsg.camera_info :=
                EPDObjectLocalizationMsg.camera_info acc;
              EPDObjectLocalizationMsg.num_objects :=
                EPDObjectLocalizationMsg.num_objects acc;
              EPDObjectLocalizationMsg.objects :=
                EPDObjectLocalizationMsg.objects acc ++ objs;
              EPDObjectLocalizationMsg.roi_array :=
                EPDObjectLocalizationMsg.roi_array acc
                  ++ map LocalizedObject.roi objs;
              EPDObjectLocalizationMsg.process_time :=
                EPDObjectLocalizationMsg.process_time acc |}.
Proof.
  induction count as [| count IH]; intros start acc Hle objs; subst objs.
  - simpl. rewrite !app_nil_r. destruct acc; reflexivity.
  - destruct (nth_error_in_range (EPDObjectLocalization.objects r) start)
      as [o Eo]; [lia |].
    simpl for_loop. unfold localize_body at 1. rewrite Eo. simpl obind.
    rewrite LocalizedObject_copy.
    rewrite IH by lia. simpl.
    rewrite (skipn_nth_error _ _ _ Eo). simpl.
    rewrite <- !app_assoc. reflexivity.
Qed.

End Localization.



(** ** Failure of the inference capability *)

(** C9. On either route, when the inference call made by a callback raises
    an exception, that same exception leaves the callback, and the
    invocation has published nothing, neither a record nor an image. *)
Theorem C9_inference_failure_propagates {Session Coord : Type}
    (X : Extern Session Coord) (a : Arrival) (s : State Session)
    (op : InferOp) (e : exn) :
  In (EvInfer op (Some e)) (trace_of (handle X a s)) ->
  outcome_of (handle X a s) = Thrown e /\
  published (trace_of (handle X a s)) = [].
Proof.
  unfold outcome_of, trace_of. destruct s as [ag ss n].
  destruct a as [msg | msg depth_msg c]; simpl; unfold_cb; simpl;
    intros H; cases_cb; simpl in *;
    intuition (try discriminate; try congruence).
Qed.

Lemma C9_inference_failure_propagates_witness :
  In (EvInfer P2_infer_action (Some Fixture.ort_error))
    (trace_of (handle (Fixture.collaborators true)
                 (Frame (Fixture.frame 640 480)) (Fixture.fresh 2 false))) /\
  outcome_of (handle (Fixture.collaborators true)
                (Frame (Fixture.frame 640 480)) (Fixture.fresh 2 false))
    = Thrown Fixture.ort_error /\
  published
    (trace_of (handle (Fixture.collaborators true)
                 (Frame (Fixture.frame 640 480)) (Fixture.fresh 2 false)))
    = [].
Proof.
  assert (H : In (EvInfer P2_infer_action (Some Fixture.ort_error))
                (trace_of (handle (Fixture.collaborators true)
                             (Frame (Fixture.frame 640 480))
                             (Fixture.fresh 2 false)))).
  { simpl. right. left. reflexivity. }
  split; [exact H |].
  exact (C9_inference_failure_propagates (Fixture.collaborators true)
           (Frame (Fixture.frame 640 480)) (Fixture.fresh 2 false)
           P2_infer_action Fixture.ort_error H).
Defined.

(** The failure event of a session call is the exception its collaborator
    returned. *)
Lemma session_call_failure {Session Coord R : Type} (op op' : InferOp)
    (f : Session -> (exn + R) * Session) (s : State Session) (e : exn) :
  In (EvInfer op' (Some e)) (trace_of (@session_call Session R op f s)) <->
  op' = op /\ exists ss, f (sessions s) = (inl e, ss).
Proof.
  unfold session_call, trace_of.
  destruct (f (sessions s)) as [[e0 | v] ss]; simpl; split.
  - intros [H | []]. inversion H; subst. split; [reflexivity |].
    exists ss. reflexivity.
  - intros [-> [ss' H]]. inversion H; subst. left. reflexivity.
  - intros [H | []]. discriminate H.
  - intros [_ [ss' H]]. discriminate H.
Qed.

(** ** A tier outside 1, 2, 3 *)

(** C10. A single-stream frame that is not empty and converts, processed
    with a precision tier other than 1, 2 and 3, calls no inference
    operation and publishes nothing, and logs no warning.  The
    initialise-or-check block still runs on it: an uninitialised session is
    sized to the frame and constructed, the callback then returning
    normally with the dimensions locked; an initialised one is left as it
    is, and the callback returns normally unless the dimension check
    throws. *)
Theorem C10_unknown_tier_does_nothing {Session Coord : Type}
    (X : Extern Session Coord) (msg : Image.t) (img : Mat.t)
    (s : State Session) :
  Image.height msg <> 0 ->
  toCvCopy X msg "bgr8" = inr img ->
  precision_level (ortAgent_ s) <> 1 ->
  precision_level (ortAgent_ s) <> 2 ->
  precision_level (ortAgent_ s) <> 3 ->
  let r := image_callback X msg s in
  inferences (trace_of r) = [] /\
  published (trace_of r) = [] /\
  warnings (trace_of r) = [] /\
  (initialized (ortAgent_ s) = false ->
   constructions (trace_of r) = [(Mat.cols img, Mat.rows img)] /\
   forall ss,
     ort_initORTSessionHandler X (sized (ortAgent_ s) img) (sessions s)
       = inr ss ->
     outcome_of r = Val tt /\
     ortAgent_ (state_of r) = locked_to (ortAgent_ s) img) /\
  (initialized (ortAgent_ s) = true ->
   constructions (trace_of r) = [] /\
   ortAgent_ (state_of r) = ortAgent_ s /\
   outcome_of r =
     if dimension_changed (ortAgent_ s) img
     then Thrown (runtime_error "Input camera changed. Please restart.")
     else Val tt).
Proof.
  intros Hh Hd H1 H2 H3 r. subst r.
  rewrite (image_callback_eq X msg img s Hh Hd), init_or_check_eq.
  destruct (initialized (ortAgent_ s)) eqn:Hi.
  - destruct (dimension_changed (ortAgent_ s) img).
    + repeat split; intros; try reflexivity; discriminate.
    + rewrite (tier_switch_no_case X img (tick s) H1 H2 H3).
      repeat split; intros; try reflexivity; discriminate.
  - simpl.
    destruct (ort_initORTSessionHandler X (sized (ortAgent_ s) img)
                (sessions s)) as [e | ss0].
    + repeat split; intros; try reflexivity; discriminate.
    + rewrite tier_switch_no_case by (simpl; assumption).
      repeat split; intros; try reflexivity; discriminate.
Qed.

Lemma C10_unknown_tier_does_nothing_witness :
  Image.height (Fixture.frame 640 480) <> 0 /\
  precision_level (ortAgent_ (Fixture.fresh 7 false)) <> 1 /\
  image_callback (Fixture.collaborators false) (Fixture.frame 640 480)
    (Fixture.fresh 7 false)
  = (Val tt, mkState (Fixture.agent true 640 480 7 false 0) O 2%nat,
     [EvInit 640 480; EvFps 5]) /\
  inferences
    (trace_of (image_callback (Fixture.collaborators false)
                 (Fixture.frame 640 480) (Fixture.fresh 7 false))) = [].
Proof.
  split; [discriminate |]. split; [discriminate |].
  split; [reflexivity |].
  refine (proj1 (C10_unknown_tier_does_nothing (Fixture.collaborators false)
                   (Fixture.frame 640 480) (Mat.mk 480 640 [])
                   (Fixture.fresh 7 false) _ _ _ _ _));
    first [discriminate | reflexivity].
Defined.

(** ** One initialisation per process *)

Section InitOnce.
Context {Session Coord : Type} (X : Extern Session Coord).

(** A callback entered with the session initialised leaves the flags and
    the locked dimensions as they are, and constructs nothing. *)
Lemma handle_when_initialized (a : Arrival) (s : State Session) :
  initialized (ortAgent_ s) = true ->
  ortAgent_ (state_of (handle X a s)) = ortAgent_ s /\
  constructions (trace_of (handle X a s)) = [].
Proof.
  intros Hi.
  destruct (Z.eq_dec (Image.height (primary a)) 0) as [Hh | Hh].
  { rewrite (handle_empty X a s Hh). split; reflexivity. }
  destruct a as [msg | msg depth_msg c]; simpl in Hh |- *.
  - destruct (toCvCopy X msg "bgr8") as [e | img] eqn:Hd.
    + rewrite (image_callback_no_decode X msg e s Hh Hd). split; reflexivity.
    + rewrite (image_callback_eq X msg img s Hh Hd).
      rewrite (init_or_check_initialized X img s Hi).
      destruct (negb (lockedWidth (ortAgent_ s) =? Mat.cols img)
                && negb (lockedHeight (ortAgent_ s) =? Mat.rows img));
        [split; reflexivity |].
      destruct (tier_switch_agent X img (tick s)) as [Ha Hc].
      destruct (tier_switch X img (tick s)) as [[[u | e |] s2] t2];
        unfold state_of, trace_of in *; simpl in *;
        rewrite ?constructions_app, Hc; split; assumption || reflexivity.
  - destruct (toCvCopy X msg "bgr8") as [e | img] eqn:Hd.
    + rewrite (localize_callback_no_decode X msg depth_msg c e s Hh
                 (or_introl Hd)).
      split; reflexivity.
    + destruct (toCvCopy X depth_msg "16UC1") as [e | depth_img] eqn:Hdd.
      * rewrite (localize_callback_no_decode X msg depth_msg c e s Hh
                   (or_intror (conj (ex_intro _ img Hd) Hdd))).
        split; reflexivity.
      * rewrite (localize_callback_eq X msg depth_msg c img depth_img s
                   Hh Hd Hdd).
        rewrite (init_or_check_initialized X img s Hi).
        destruct (negb (lockedWidth (ortAgent_ s) =? Mat.cols img)
                  && negb (lockedHeight (ortAgent_ s) =? Mat.rows img));
          [split; reflexivity |].
        destruct (localize_dispatch_agent X img depth_img depth_msg c
                    (clock X (clock_reads s)) (tick s)) as [Ha Hc].
        destruct (localize_dispatch X img depth_img depth_msg c
                    (clock X (clock_reads s)) (tick s)) as [[o s2] t2].
        unfold state_of, trace_of in *; simpl in *.
        split; assumption.
Qed.

(** The same along a whole run. *)
Lemma run_when_initialized (arrivals : list Arrival) :
  forall s : State Session,
    initialized (ortAgent_ s) = true ->
    ortAgent_ (state_of (run X arrivals s)) = ortAgent_ s /\
    constructions (trace_of (run X arrivals s)) = [].
Proof.
  induction arrivals as [| a rest IH]; intros s Hi; simpl.
  - split; reflexivity.
  - destruct (handle_when_initialized a s Hi) as [Ha Hc].
    unfold bind.
    destruct (handle X a s) as [[[u | e |] s1] t1];
      unfold state_of, trace_of in *; simpl in *;
      try (split; assumption).
    assert (Hi1 : initialized (ortAgent_ s1) = true) by (rewrite Ha; exact Hi).
    destruct (IH s1 Hi1) as [Ha2 Hc2].
    destruct (run X rest s1) as [[o2 s2] t2]. simpl in *.
    rewrite constructions_app, Hc, Hc2, Ha2, Ha. split; reflexivity.
Qed.

(** The first callback that gets past the guard and the conversions on an
    uninitialised session locks the dimensions of its frame and constructs
    the engine once, however its inference call ends. *)
Lemma handle_first_frame (a : Arrival) (img : Mat.t) (s : State Session) ss :
  initialized (ortAgent_ s) = false ->
  Image.height (primary a) <> 0 ->
  decodes X a img ->
  ort_initORTSessionHandler X (sized (ortAgent_ s) img) (sessions s)
    = inr ss ->
  ortAgent_ (state_of (handle X a s)) = locked_to (ortAgent_ s) img /\
  constructions (trace_of (handle X a s)) = [(Mat.cols img, Mat.rows img)].
Proof.
  intros Hi Hh Hd Ho.
  destruct a as [msg | msg depth_msg c]; simpl in Hh, Hd |- *.
  - rewrite (image_callback_eq X msg img s Hh Hd), init_or_check_eq, Hi.
    simpl. rewrite Ho.
    match goal with
    | |- context [tier_switch X img ?st] =>
        destruct (tier_switch_agent X img st) as [Ha Hc];
        destruct (tier_switch X img st) as [[[u | e |] s2] t2]
    end;
      unfold state_of, trace_of in *; simpl in *;
      rewrite ?constructions_app, Hc; split; assumption || reflexivity.
  - destruct Hd as [Hd [depth_img Hdd]].
    rewrite (localize_callback_eq X msg depth_msg c img depth_img s
               Hh Hd Hdd), init_or_check_eq, Hi.
    simpl. rewrite Ho.
    match goal with
    | |- context [localize_dispatch X img depth_img depth_msg c ?b ?st] =>
        destruct (localize_dispatch_agent X img depth_img depth_msg c b st)
          as [Ha Hc];
        destruct (localize_dispatch X img depth_img depth_msg c b st)
          as [[o s2] t2]
    end.
    unfold state_of, trace_of in *; simpl in *.
    rewrite Hc. split; assumption || reflexivity.
Qed.

(** Arrivals with an empty primary image only add warnings to a run. *)
Lemma run_skips_empty (pre rest : list Arrival) (s : State Session) :
  Forall (fun b => Image.height (primary b) = 0) pre ->
  run X (pre ++ rest) s =
    let '(o, s', t) := run X rest s in
    (o, s', map (fun _ => EvWarn "Input image empty. Discarding.") pre ++ t).
Proof.
  intros Hpre. induction Hpre as [| b pre Hb Hpre IH]; simpl.
  - destruct (run X rest s) as [[o s'] t]. reflexivity.
  - unfold bind at 1.
    rewrite (handle_empty X b s Hb), IH.
    destruct (run X rest s) as [[o s'] t]. reflexivity.
Qed.

(** A run whose first arrival initialises the session: one construction,
    and the dimensions of that arrival to the end. *)
Lemma run_first_frame (a : Arrival) (post : list Arrival) (img : Mat.t)
    (s : State Session) ss :
  initialized (ortAgent_ s) = false ->
  Image.height (primary a) <> 0 ->
  decodes X a img ->
  ort_initORTSessionHandler X (sized (ortAgent_ s) img) (sessions s)
    = inr ss ->
  ortAgent_ (state_of (run X (a :: post) s)) = locked_to (ortAgent_ s) img /\
  constructions (trace_of (run X (a :: post) s))
    = [(Mat.cols img, Mat.rows img)].
Proof.
  intros Hi Hh Hd Ho.
  destruct (handle_first_frame a img s ss Hi Hh Hd Ho) as [Ha Hc].
  simpl run. unfold bind.
  destruct (handle X a s) as [[[u | e |] s1] t1];
    unfold state_of, trace_of in *; simpl in *;
    try (split; assumption).
  assert (Hi1 : initialized (ortAgent_ s1) = true)
    by (rewrite Ha; reflexivity).
  destruct (run_when_initialized post s1 Hi1) as [Ha2 Hc2].
  destruct (run X post s1) as [[o2 s2] t2].
  unfold state_of, trace_of in *; simpl in *.
  rewrite constructions_app, Hc, Hc2, Ha2, Ha. split; reflexivity.
Qed.

Lemma constructions_warnings (pre : list Arrival) :
  constructions (map (fun _ => EvWarn "Input image empty. Discarding.") pre)
    = [].
Proof. induction pre; simpl; auto. Qed.

End InitOnce.

(** C8. In a process run that starts uninitialised, on either route and in
    any interleaving of the two, the first arrival whose primary image is
    not empty (its images converting and the engine construction
    succeeding) locks the width and height of its frame and sets the
    initialized flag; over the whole run, whatever arrives afterwards, the
    engine is constructed exactly once, for those dimensions, and the
    locked width and height are still those of that frame at the end. *)
Theorem C8_initialization_happens_once {Session Coord : Type}
    (X : Extern Session Coord) (pre post : list Arrival) (a : Arrival)
    (img : Mat.t) (s : State Session) (ss : Session) :
  initialized (ortAgent_ s) = false ->
  Forall (fun b => Image.height (primary b) = 0) pre ->
  Image.height (primary a) <> 0 ->
  decodes X a img ->
  ort_initORTSessionHandler X (sized (ortAgent_ s) img) (sessions s)
    = inr ss ->
  let r := run X (pre ++ a :: post) s in
  constructions (trace_of r) = [(Mat.cols img, Mat.rows img)] /\
  initialized (ortAgent_ (state_of r)) = true /\
  lockedWidth (ortAgent_ (state_of r)) = Mat.cols img /\
  lockedHeight (ortAgent_ (state_of r)) = Mat.rows img.
Proof.
  intros Hi Hpre Hh Hd Ho r. subst r.
  destruct (run_first_frame X a post img s ss Hi Hh Hd Ho) as [Ha Hc].
  rewrite (run_skips_empty X pre (a :: post) s Hpre).
  destruct (run X (a :: post) s) as [[o s'] t].
  unfold state_of, trace_of in *; simpl in *.
  rewrite constructions_app, constructions_warnings, Hc, Ha.
  repeat split.
Qed.

Lemma C8_initialization_happens_once_witness :
  Image.height (primary (Frame (Fixture.frame 640 480))) <> 0 /\
  constructions
    (trace_of
       (run (Fixture.collaborators false)
          ([Frame (Fixture.frame 800 0)] ++
           Frame (Fixture.frame 640 480) ::
           [Tuple (Fixture.frame 640 480) (Fixture.depth 640 480)
              Fixture.calibration;
            Frame (Fixture.frame 640 240);
            Frame (Fixture.frame 320 240);
            Frame (Fixture.frame 640 480)])
          (Fixture.fresh 1 false)))
    = [(640, 480)] /\
  lockedWidth
    (ortAgent_
       (state_of
          (run (Fixture.collaborators false)
             ([Frame (Fixture.frame 800 0)] ++
              Frame (Fixture.frame 640 480) ::
              [Tuple (Fixture.frame 640 480) (Fixture.depth 640 480)
                 Fixture.calibration;
               Frame (Fixture.frame 640 240);
               Frame (Fixture.frame 320 240);
               Frame (Fixture.frame 640 480)])
             (Fixture.fresh 1 false))))
    = 640.
Proof.
  assert (Hh : Image.height (primary (Frame (Fixture.frame 640 480))) <> 0)
    by discriminate.
  split; [exact Hh |].
  assert (Hpre : Forall (fun b => Image.height (primary b) = 0)
                   [Frame (Fixture.frame 800 0)])
    by (constructor; [reflexivity | constructor]).
  pose proof (C8_initialization_happens_once (Fixture.collaborators false)
                [Frame (Fixture.frame 800 0)]
                [Tuple (Fixture.frame 640 480) (Fixture.depth 640 480)
                   Fixture.calibration;
                 Frame (Fixture.frame 640 240);
                 Frame (Fixture.frame 320 240);
                 Frame (Fixture.frame 640 480)]
                (Frame (Fixture.frame 640 480))
                (Mat.mk 480 640 []) (Fixture.fresh 1 false) O
                eq_refl Hpre Hh eq_refl eq_refl) as H.
  split; [exact (proj1 H) | exact (proj1 (proj2 (proj2 H)))].
Defined.

(** * Further properties of the callbacks *)

(** ** Early exits leave the node as it was *)

(** X1. On an initialised session, an arrival that is not empty, converts,
    and whose frame differs from the locked dimensions in both width and
    height ends the callback with the runtime error "Input camera changed.
    Please restart."; the state is the one the callback was entered with
    and nothing is logged, inferred or published. *)
Theorem dimension_change_is_fatal_and_inert {Session Coord : Type}
    (X : Extern Session Coord) (a : Arrival) (img : Mat.t)
    (s : State Session) :
  initialized (ortAgent_ s) = true ->
  Image.height (primary a) <> 0 ->
  decodes X a img ->
  lockedWidth (ortAgent_ s) <> Mat.cols img ->
  lockedHeight (ortAgent_ s) <> Mat.rows img ->
  handle X a s =
    (Thrown (runtime_error "Input camera changed. Please restart."), s, []).
Proof.
  intros Hi Hh Hd Hw Hr.
  apply Z.eqb_neq in Hw. apply Z.eqb_neq in Hr.
  destruct a as [msg | msg depth_msg c]; simpl in Hh, Hd |- *.
  - rewrite (image_callback_eq X msg img s Hh Hd).
    rewrite (init_or_check_initialized X img s Hi), Hw, Hr. reflexivity.
  - destruct Hd as [Hd [depth_img Hdd]].
    rewrite (localize_callback_eq X msg depth_msg c img depth_img s
               Hh Hd Hdd).
    rewrite (init_or_check_initialized X img s Hi), Hw, Hr. reflexivity.
Qed.

Lemma dimension_change_is_fatal_and_inert_witness :
  Image.height (primary (Frame (Fixture.frame 320 240))) <> 0 /\
  handle (Fixture.collaborators false) (Frame (Fixture.frame 320 240))
    (Fixture.locked 640 480 2 false)
  = (Thrown (runtime_error "Input camera changed. Please restart."),
     Fixture.locked 640 480 2 false, []).
Proof.
  split; [discriminate |].
  apply (dimension_change_is_fatal_and_inert (Fixture.collaborators false)
           (Frame (Fixture.frame 320 240)) (Mat.mk 240 320 [])
           (Fixture.locked 640 480 2 false));
    first [discriminate | reflexivity].
Defined.

(** X2. When a conversion throws on an arrival that is not empty, the
    exception leaves the callback at once: the state is unchanged (an
    uninitialised session stays uninitialised, also when only the depth
    image fails) and the trace is empty. *)
Theorem conversion_failure_is_inert {Session Coord : Type}
    (X : Extern Session Coord) (a : Arrival) (e : exn) (s : State Session) :
  Image.height (primary a) <> 0 ->
  decode_fails X a e ->
  handle X a s = (Thrown e, s, []).
Proof.
  intros Hh Hd. destruct a as [msg | msg depth_msg c]; simpl in Hh, Hd |- *.
  - exact (image_callback_no_decode X msg e s Hh Hd).
  - exact (localize_callback_no_decode X msg depth_msg c e s Hh Hd).
Qed.

Lemma conversion_failure_is_inert_witness :
  Image.height
    (primary (Tuple (Fixture.frame 640 480)
                (Image.mk Header.default 480 640 "" 0 [])
                Fixture.calibration)) <> 0 /\
  handle (Fixture.collaborators false)
    (Tuple (Fixture.frame 640 480) (Image.mk Header.default 480 640 "" 0 [])
       Fixture.calibration)
    (Fixture.fresh 3 false)
  = (Thrown (foreign_error "cv_bridge" "unsupported encoding"),
     Fixture.fresh 3 false, []).
Proof.
  split; [discriminate |].
  apply (conversion_failure_is_inert (Fixture.collaborators false)
           (Tuple (Fixture.frame 640 480)
              (Image.mk Header.default 480 640 "" 0 [])
              Fixture.calibration)
           (foreign_error "cv_bridge" "unsupported encoding")
           (Fixture.fresh 3 false)).
  - discriminate.
  - right. split; [eexists; reflexivity | reflexivity].
Defined.

(** A construction that throws, on either route. *)
Lemma handle_construction_fails {Session Coord : Type}
    (X : Extern Session Coord) (a : Arrival) (img : Mat.t) (e : exn)
    (s : State Session) :
  initialized (ortAgent_ s) = false ->
  Image.height (primary a) <> 0 ->
  decodes X a img ->
  ort_initORTSessionHandler X (sized (ortAgent_ s) img) (sessions s)
    = inl e ->
  handle X a s =
    (Thrown e,
     mkState (sized (ortAgent_ s) img) (sessions s) (clock_reads s),
     [EvInit (Mat.cols img) (Mat.rows img)]).
Proof.
  intros Hi Hh Hd Ho.
  destruct a as [msg | msg depth_msg c]; simpl in Hh, Hd |- *.
  - rewrite (image_callback_eq X msg img s Hh Hd), init_or_check_eq, Hi.
    simpl. rewrite Ho. reflexivity.
  - destruct Hd as [Hd [depth_img Hdd]].
    rewrite (localize_callback_eq X msg depth_msg c img depth_img s
               Hh Hd Hdd), init_or_check_eq, Hi.
    simpl. rewrite Ho. reflexivity.
Qed.

(** X3. When the engine construction throws on the first frame that is not
    empty, the exception leaves the callback; the frame's dimensions have
    been stored but the initialized flag is still false, one construction
    attempt is recorded, and nothing is inferred or published. *)
Theorem construction_failure_leaves_uninitialized {Session Coord : Type}
    (X : Extern Session Coord) (a : Arrival) (img : Mat.t) (e : exn)
    (s : State Session) :
  initialized (ortAgent_ s) = false ->
  Image.height (primary a) <> 0 ->
  decodes X a img ->
  ort_initORTSessionHandler X (sized (ortAgent_ s) img) (sessions s)
    = inl e ->
  handle X a s =
    (Thrown e,
     mkState (sized (ortAgent_ s) img) (sessions s) (clock_reads s),
     [EvInit (Mat.cols img) (Mat.rows img)]) /\
  initialized (ortAgent_ (state_of (handle X a s))) = false.
Proof.
  intros Hi Hh Hd Ho.
  rewrite (handle_construction_fails X a img e s Hi Hh Hd Ho).
  split; [reflexivity | exact Hi].
Qed.

Lemma construction_failure_leaves_uninitialized_witness :
  Image.height (primary (Frame (Fixture.frame 640 480))) <> 0 /\
  handle no_engine (Frame (Fixture.frame 640 480)) (Fixture.fresh 2 false)
  = (Thrown engine_error,
     mkState (Fixture.agent false 640 480 2 false 0) O O,
     [EvInit 640 480]).
Proof.
  split; [discriminate |].
  refine (proj1 (construction_failure_leaves_uninitialized no_engine
                   (Frame (Fixture.frame 640 480)) (Mat.mk 480 640 [])
                   engine_error (Fixture.fresh 2 false) _ _ _ _));
    first [discriminate | reflexivity].
Defined.

(** ** What one invocation can emit *)

Ltac by_cases_on_callback a s :=
  unfold outcome_of, state_of, trace_of;
  let ag := fresh "ag" in
  let ss := fresh "ss" in
  let n := fresh "n" in
  destruct s as [ag ss n];
  destruct a as [? | ? ? ?]; simpl; unfold_cb; simpl.

(** X4. Whatever the arrival, the state and the collaborators, one callback
    invocation makes at most one inference call and publishes at most one
    message. *)
Theorem at_most_one_inference_and_publication {Session Coord : Type}
    (X : Extern Session Coord) (a : Arrival) (s : State Session) :
  (List.length (inferences (trace_of (handle X a s))) <= 1)%nat /\
  (List.length (published (trace_of (handle X a s))) <= 1)%nat.
Proof.
  by_cases_on_callback a s; cases_cb; simpl; split; lia.
Qed.

(** X5. A message is published only by an invocation that returns normally:
    if the trace of a callback holds a publication, no exception left the
    callback, and the inference call it made raised nothing. *)
Theorem publication_means_success {Session Coord : Type}
    (X : Extern Session Coord) (a : Arrival) (s : State Session)
    (o : Output) :
  In o (published (trace_of (handle X a s))) ->
  outcome_of (handle X a s) = Val tt /\
  exists op, inferences (trace_of (handle X a s)) = [op] /\
             In (EvInfer op None) (trace_of (handle X a s)).
Proof.
  by_cases_on_callback a s; intros H; cases_cb; simpl in *;
    try contradiction;
    (split; [reflexivity | eexists; split; [reflexivity | simpl; tauto]]).
Qed.

(** X6. The channel of a published message tells the configuration the
    callback ran with.  On the single-stream route: the label channel only
    with tier 1, the tier-2 (tier-3) record channel only with tier 2
    (tier 3) and the visualize flag clear, the image channel only with tier
    2 or 3 and the flag set, the localization channel never.  On the
    synchronized route: the image channel only with the flag set, the
    localization channel only with the flag clear, no other channel. *)
Theorem channel_reveals_configuration {Session Coord : Type}
    (X : Extern Session Coord) (a : Arrival) (s : State Session)
    (o : Output) :
  In o (published (trace_of (handle X a s))) ->
  match a with
  | Frame _ => single_stream_channel (ortAgent_ s) o
  | Tuple _ _ _ => synchronized_channel (ortAgent_ s) o
  end.
Proof.
  by_cases_on_callback a s; intros H; cases_cb; simpl in *;
    repeat match goal with
           | H : _ \/ _ |- _ => destruct H
           | H : False |- _ => contradiction
           end;
    subst; simpl; auto.
Qed.

(** X7. The frame rate logged by an invocation that publishes a localization
    record is computed from that record's [process_time]: the call is
    [RCLCPP_INFO(..., 1000.0 / ms)] with [ms] the stored [process_time],
    both being the one [elapsedTime.count()] of lines 239-242. *)
Theorem process_time_is_the_logged_time {Session Coord : Type}
    (X : Extern Session Coord) (a : Arrival) (s : State Session)
    (m : EPDObjectLocalizationMsg.t) :
  In (localize_pub m) (published (trace_of (handle X a s))) ->
  In (EvFps (EPDObjectLocalizationMsg.process_time m))
    (trace_of (handle X a s)).
Proof.
  by_cases_on_callback a s; intros H; cases_cb; simpl in *;
    repeat match goal with
           | H : _ \/ _ |- _ => destruct H
           | H : False |- _ => contradiction
           | H : localize_pub _ = localize_pub _ |- _ =>
               inversion H; clear H; subst
           | H : _ = localize_pub _ |- _ => discriminate H
           end;
    simpl; tauto.
Qed.


(** X9. An arrival whose primary image is not empty never logs the
    empty-frame warning, whatever happens to it afterwards. *)
Theorem no_warning_for_a_frame_with_rows {Session Coord : Type}
    (X : Extern Session Coord) (a : Arrival) (s : State Session) :
  Image.height (primary a) <> 0 ->
  warnings (trace_of (handle X a s)) = [].
Proof.
  intros Hh. apply Z.eqb_neq in Hh. revert Hh.
  by_cases_on_callback a s; intros Hh; rewrite Hh; cases_cb; reflexivity.
Qed.

(** X10. No callback ever changes the configuration: the precision tier,
    the visualize flag and the use-case mode are the same after any run,
    however each invocation ends. *)
Theorem configuration_is_never_changed {Session Coord : Type}
    (X : Extern Session Coord) (arrivals : list Arrival) :
  forall s : State Session,
    precision_level (ortAgent_ (state_of (run X arrivals s)))
      = precision_level (ortAgent_ s) /\
    visualize (ortAgent_ (state_of (run X arrivals s)))
      = visualize (ortAgent_ s) /\
    useCaseMode (ortAgent_ (state_of (run X arrivals s)))
      = useCaseMode (ortAgent_ s).
Proof.
  induction arrivals as [| a rest IH]; intros s; simpl.
  - repeat split.
  - assert (H : precision_level (ortAgent_ (state_of (handle X a s)))
                  = precision_level (ortAgent_ s) /\
                visualize (ortAgent_ (state_of (handle X a s)))
                  = visualize (ortAgent_ s) /\
                useCaseMode (ortAgent_ (state_of (handle X a s)))
                  = useCaseMode (ortAgent_ s)).
    { clear IH. by_cases_on_callback a s; cases_cb; repeat split. }
    unfold bind.
    destruct (handle X a s) as [[[u | e |] s1] t1];
      unfold state_of in *; simpl in *; try exact H.
    specialize (IH s1).
    destruct (run X rest s1) as [[o2 s2] t2]. simpl in *.
    destruct H as (H1 & H2 & H3). destruct IH as (I1 & I2 & I3).
    rewrite I1, I2, I3. repeat split; assumption.
Qed.

(** ** Content of the detection records *)

Section RecordContent.
Context {Session Coord : Type} (X : Extern Session Coord).

(** The class indices and scores appended by the tier-2 loop are those of
    the result, in order. *)
Lemma p2_loop_content (r : EPDObjectDetection.t Coord) (count : nat) :
  forall (start : nat) (acc m : EPDObjectDetectionMsg.t),
    for_loop start count (p2_body X r) acc = Some m ->
    EPDObjectDetectionMsg.class_indices m
      = EPDObjectDetectionMsg.class_indices acc
        ++ firstn count (skipn start (EPDObjectDetection.classIndices r)) /\
    EPDObjectDetectionMsg.scores m
      = EPDObjectDetectionMsg.scores acc
        ++ firstn count (skipn start (EPDObjectDetection.scores r)).
Proof.
  induction count as [| count IH]; intros start acc m H; simpl in H.
  - inversion H; subst. simpl. rewrite !app_nil_r. split; reflexivity.
  - destruct (p2_body X r start acc) as [acc' |] eqn:E; [| discriminate].
    apply IH in H. destruct H as [Hc Hs].
    unfold p2_body in E.
    destruct (nth_error (EPDObjectDetection.classIndices r) start)
      as [ci |] eqn:Eci; simpl in E; [| discriminate].
    destruct (nth_error (EPDObjectDetection.scores r) start)
      as [sc |] eqn:Esc; simpl in E; [| discriminate].
    destruct (nth_error (EPDObjectDetection.bboxes r) start)
      as [bb |]; simpl in E; [| discriminate].
    destruct (roi_of_bbox X bb) as [roi |]; simpl in E; [| discriminate].
    inversion E; subst acc'; clear E. simpl in Hc, Hs.
    rewrite Hc, Hs, (skipn_nth_error _ _ _ Eci), (skipn_nth_error _ _ _ Esc).
    simpl. rewrite <- !app_assoc. split; reflexivity.
Qed.

(** The same for the tier-3 loop, with the masks converted one by one. *)
Lemma p3_loop_content (r : EPDObjectDetection.t Coord) (count : nat) :
  forall (start : nat) (acc m : EPDObjectDetectionMsg.t),
    for_loop start count (p3_body X r) acc = Some m ->
    EPDObjectDetectionMsg.class_indices m
      = EPDObjectDetectionMsg.class_indices acc
        ++ firstn count (skipn start (EPDObjectDetection.classIndices r)) /\
    EPDObjectDetectionMsg.scores m
      = EPDObjectDetectionMsg.scores acc
        ++ firstn count (skipn start (EPDObjectDetection.scores r)) /\
    EPDObjectDetectionMsg.masks m
      = EPDObjectDetectionMsg.masks acc
        ++ map (toImageMsg X Header.default "32FC1")
             (firstn count (skipn start (EPDObjectDetection.masks r))).
Proof.
  induction count as [| count IH]; intros start acc m H; simpl in H.
  - inversion H; subst. simpl. rewrite !app_nil_r. repeat split.
  - destruct (p3_body X r start acc) as [acc' |] eqn:E; [| discriminate].
    apply IH in H. destruct H as (Hc & Hs & Hm).
    unfold p3_body in E.
    destruct (nth_error (EPDObjectDetection.classIndices r) start)
      as [ci |] eqn:Eci; simpl in E; [| discriminate].
    destruct (nth_error (EPDObjectDetection.scores r) start)
      as [sc |] eqn:Esc; simpl in E; [| discriminate].
    destruct (nth_error (EPDObjectDetection.bboxes r) start)
      as [bb |]; simpl in E; [| discriminate].
    destruct (roi_of_bbox X bb) as [roi |]; simpl in E; [| discriminate].
    destruct (nth_error (EPDObjectDetection.masks r) start)
      as [mk |] eqn:Emk; simpl in E; [| discriminate].
    inversion E; subst acc'; clear E. simpl in Hc, Hs, Hm.
    rewrite Hc, Hs, Hm, (skipn_nth_error _ _ _ Eci),
      (skipn_nth_error _ _ _ Esc), (skipn_nth_error _ _ _ Emk).
    simpl. rewrite <- !app_assoc. repeat split.
Qed.

Lemma roi_of_bbox_not_rectified (b : list Coord) (roi : RegionOfInterest.t) :
  roi_of_bbox X b = Some roi -> RegionOfInterest.do_rectify roi = false.
Proof.
  destruct b as [| x1 [| y1 [| x2 [| y2 rest]]]]; simpl; try discriminate.
  intros H. inversion H. reflexivity.
Qed.

(** A loop that succeeded has read only entries that exist. *)
Lemma localize_loop_in_range (r : EPDObjectLocalization.t) (count : nat) :
  forall (start : nat) (acc m : EPDObjectLocalizationMsg.t),
    for_loop start count (@localize_body r) acc = Some m ->
    (count <= List.length (EPDObjectLocalization.objects r) - start)%nat.
Proof.
  induction count as [| count IH]; intros start acc m H; simpl in H.
  - lia.
  - destruct (localize_body r start acc) as [acc' |] eqn:E; [| discriminate].
    apply IH in H. unfold localize_body in E.
    destruct (nth_error (EPDObjectLocalization.objects r) start)
      as [o |] eqn:Eo; simpl in E; [| discriminate].
    assert (start < List.length (EPDObjectLocalization.objects r))%nat
      by (apply nth_error_Some; rewrite Eo; discriminate).
    lia.
Qed.

Lemma localize_fill_shape (img : Mat.t) (depth_msg : Image.t)
    (c : CameraInfo.t) (r : EPDObjectLocalization.t)
    (m : EPDObjectLocalizationMsg.t) :
  localize_fill img depth_msg c r = Some m ->
  EPDObjectLocalizationMsg.roi_array m
    = map LocalizedObject.roi (EPDObjectLocalizationMsg.objects m) /\
  List.length (EPDObjectLocalizationMsg.objects m)
    = EPDObjectLocalizationMsg.num_objects m /\
  EPDObjectLocalizationMsg.objects m
    = firstn (EPDObjectLocalizationMsg.num_objects m)
        (EPDObjectLocalization.objects r).
Proof.
  unfold localize_fill. intros H.
  pose proof (localize_loop_in_range r _ _ _ _ H) as Hle.
  rewrite localize_loop_appends in H by lia.
  inversion H; subst; clear H. simpl.
  rewrite length_firstn. repeat split. lia.
Qed.

End RecordContent.

(** X11. A tier-2 record that is built carries the first [data_size] class
    indices and scores of the result, in order, as many boxes, and no
    mask. *)
Theorem tier2_record_content {Session Coord : Type}
    (X : Extern Session Coord) (r : EPDObjectDetection.t Coord)
    (m : EPDObjectDetectionMsg.t) :
  p2_fill X r = Some m ->
  EPDObjectDetectionMsg.class_indices m
    = firstn (EPDObjectDetection.data_size r)
        (EPDObjectDetection.classIndices r) /\
  EPDObjectDetectionMsg.scores m
    = firstn (EPDObjectDetection.data_size r) (EPDObjectDetection.scores r) /\
  List.length (EPDObjectDetectionMsg.bboxes m)
    = EPDObjectDetection.data_size r /\
  EPDObjectDetectionMsg.masks m = [].
Proof.
  intros H. unfold p2_fill in H.
  destruct (p2_loop_content X r _ _ _ _ H) as [Hc Hs].
  destruct (p2_loop_appends X r _ _ _ _ H)
    as (cs & ss & bs & _ & _ & Hb & Hm & _ & _ & Lb & _).
  rewrite Hc, Hs, Hb, Hm. simpl. repeat split. exact Lb.
Qed.

Lemma tier2_record_content_witness :
  exists m,
    p2_fill (Fixture.collaborators false) Fixture.detection = Some m /\
    EPDObjectDetectionMsg.class_indices m = [7; 3] /\
    EPDObjectDetectionMsg.masks m = [].
Proof.
  eexists. split; [reflexivity |].
  pose proof (tier2_record_content (Fixture.collaborators false)
                Fixture.detection _ eq_refl) as H.
  split; [exact (proj1 H) | exact (proj2 (proj2 (proj2 H)))].
Defined.

(** X12. A tier-3 record that is built carries the first [data_size] class
    indices and scores of the result, in order, and the first [data_size]
    masks, each converted to a "32FC1" image message with a default
    header. *)
Theorem tier3_record_content {Session Coord : Type}
    (X : Extern Session Coord) (r : EPDObjectDetection.t Coord)
    (m : EPDObjectDetectionMsg.t) :
  p3_fill X r = Some m ->
  EPDObjectDetectionMsg.class_indices m
    = firstn (EPDObjectDetection.data_size r)
        (EPDObjectDetection.classIndices r) /\
  EPDObjectDetectionMsg.scores m
    = firstn (EPDObjectDetection.data_size r) (EPDObjectDetection.scores r) /\
  EPDObjectDetectionMsg.masks m
    = map (toImageMsg X Header.default "32FC1")
        (firstn (EPDObjectDetection.data_size r)
           (EPDObjectDetection.masks r)).
Proof.
  intros H. unfold p3_fill in H.
  exact (p3_loop_content X r _ _ _ _ H).
Qed.

Lemma tier3_record_content_witness :
  exists m,
    p3_fill (Fixture.collaborators false) Fixture.detection = Some m /\
    EPDObjectDetectionMsg.scores m = [1061997773; 1056964608] /\
    EPDObjectDetectionMsg.masks m
      = [Fixture.encode Header.default "32FC1" (Mat.mk 2 2 [0; 1; 1; 0]);
         Fixture.encode Header.default "32FC1" (Mat.mk 1 1 [1])].
Proof.
  eexists. split; [reflexivity |].
  pose proof (tier3_record_content (Fixture.collaborators false)
                Fixture.detection _ eq_refl) as H.
  split; [exact (proj1 (proj2 H)) | exact (proj2 (proj2 H))].
Defined.

(** X13. No box of a tier-2 or tier-3 record asks for rectification:
    [do_rectify] is false in every emitted region. *)
Theorem emitted_boxes_are_not_rectified {Session Coord : Type}
    (X : Extern Session Coord) (r : EPDObjectDetection.t Coord)
    (m : EPDObjectDetectionMsg.t) :
  p2_fill X r = Some m \/ p3_fill X r = Some m ->
  Forall (fun roi => RegionOfInterest.do_rectify roi = false)
    (EPDObjectDetectionMsg.bboxes m).
Proof.
  intros H.
  assert (Hn : exists bs,
             EPDObjectDetectionMsg.bboxes m = bs /\
             forall i, (i < List.length bs)%nat ->
               nth_error bs i =
                 obind (nth_error (EPDObjectDetection.bboxes r) i)
                   (roi_of_bbox X)).
  { destruct H as [H | H].
    - destruct (p2_loop_appends X r _ _ _ _ H)
        as (cs & ss & bs & _ & _ & Hb & _ & _ & _ & Lb & Hn).
      exists bs. split; [exact Hb |]. rewrite Lb. exact Hn.
    - destruct (p3_loop_appends X r _ _ _ _ H)
        as (cs & ss & bs & ms & _ & _ & Hb & _ & _ & _ & Lb & _ & Hn).
      exists bs. split; [exact Hb |]. rewrite Lb. exact Hn. }
  destruct Hn as (bs & -> & Hn).
  apply Forall_forall. intros roi Hin.
  destruct (In_nth_error _ _ Hin) as [i Hi].
  assert (Hlt : (i < List.length bs)%nat)
    by (apply nth_error_Some; rewrite Hi; discriminate).
  rewrite (Hn i Hlt) in Hi.
  destruct (nth_error (EPDObjectDetection.bboxes r) i) as [bb |];
    simpl in Hi; [| discriminate].
  exact (roi_of_bbox_not_rectified X bb roi Hi).
Qed.

Lemma emitted_boxes_are_not_rectified_witness :
  exists m,
    p2_fill (Fixture.collaborators false) Fixture.detection = Some m /\
    Forall (fun roi => RegionOfInterest.do_rectify roi = false)
      (EPDObjectDetectionMsg.bboxes m).
Proof.
  eexists. split; [reflexivity |].
  apply (emitted_boxes_are_not_rectified (Fixture.collaborators false)
           Fixture.detection).
  left. reflexivity.
Defined.

(** ** The synchronized route, further *)

(** X14. Every localization record that is published is consistent: the
    region array is the list of the regions of its objects, in order; the
    object count is the number of objects it lists; the header is the
    default one. *)
Theorem localization_record_is_consistent {Session Coord : Type}
    (X : Extern Session Coord) (a : Arrival) (s : State Session)
    (m : EPDObjectLocalizationMsg.t) :
  In (localize_pub m) (published (trace_of (handle X a s))) ->
  EPDObjectLocalizationMsg.roi_array m
    = map LocalizedObject.roi (EPDObjectLocalizationMsg.objects m) /\
  List.length (EPDObjectLocalizationMsg.objects m)
    = EPDObjectLocalizationMsg.num_objects m /\
  EPDObjectLocalizationMsg.header m = Header.default.
Proof.
  by_cases_on_callback a s; intros H; cases_cb; simpl in *;
    repeat match goal with
           | H : _ \/ _ |- _ => destruct H
           | H : False |- _ => contradiction
           | H : localize_pub _ = localize_pub _ |- _ =>
               inversion H; clear H; subst
           | H : _ = localize_pub _ |- _ => discriminate H
           end;
    match goal with
    | H : localize_fill ?img ?d ?c ?r = Some ?m0 |- _ =>
        destruct (localize_fill_shape img d c r m0 H) as (R1 & R2 & _);
        unfold localize_fill in H;
        pose proof (localize_loop_in_range r _ _ _ _ H) as Hle;
        rewrite localize_loop_appends in H by lia;
        inversion H; subst; clear H
    end;
    simpl in *; repeat split; auto.
Qed.

(** X15. On the synchronized route with the visualize flag set, a tuple
    that gets to the dispatch and whose inference call returns an annotated
    frame publishes that frame, converted to a "bgr8" image with a default
    header, on the image channel, and nothing on the localization channel;
    the callback returns normally. *)
Theorem localization_visualize_publishes_image {Session Coord : Type}
    (X : Extern Session Coord) (msg depth_msg : Image.t) (c : CameraInfo.t)
    (img depth_img r : Mat.t) (s s1 : State Session) (t1 : list Event)
    (ss : Session) :
  Image.height msg <> 0 ->
  toCvCopy X msg "bgr8" = inr img ->
  toCvCopy X depth_msg "16UC1" = inr depth_img ->
  init_or_check X img s = (Val tt, s1, t1) ->
  visualize (ortAgent_ s) = true ->
  p3_infer_visualize_depth X (sessions s1) img depth_img c = (inr r, ss) ->
  outcome_of (localize_callback X msg depth_msg c s) = Val tt /\
  published (trace_of (localize_callback X msg depth_msg c s))
    = [visual_pub (toImageMsg X Header.default "bgr8" r)].
Proof.
  intros Hh Hd Hdd Hic V Hi.
  destruct (init_or_check_returns X img s s1 _ t1 Hic)
    as (_ & Hv & _ & _ & Hp & _).
  rewrite (localize_callback_eq X msg depth_msg c img depth_img s Hh Hd Hdd).
  rewrite Hic. rewrite <- Hv in V.
  unfold localize_dispatch, isVisualize, session_call, publish, defined,
    now, RCLCPP_INFO_fps, emit, bind, get_agent, ret, undefined.
  simpl. rewrite V. simpl. rewrite Hi.
  unfold outcome_of, trace_of. simpl.
  rewrite published_app, Hp. split; reflexivity.
Qed.

Lemma localization_visualize_publishes_image_witness :
  Image.height (Fixture.frame 640 480) <> 0 /\
  published
    (trace_of
       (localize_callback (Fixture.collaborators false)
          (Fixture.frame 640 480) (Fixture.depth 640 480)
          Fixture.calibration (Fixture.fresh 1 true)))
  = [visual_pub (Fixture.encode Header.default "bgr8" (Mat.mk 480 640 []))].
Proof.
  split; [discriminate |].
  refine (proj2 (localization_visualize_publishes_image
                   (Fixture.collaborators false)
                   (Fixture.frame 640 480) (Fixture.depth 640 480)
                   Fixture.calibration
                   (Mat.mk 480 640 []) (Mat.mk 480 640 [])
                   (Mat.mk 480 640 [])
                   (Fixture.fresh 1 true)
                   (mkState (Fixture.agent true 640 480 1 true 0) O O)
                   [EvInit 640 480] 1%nat _ _ _ _ _ _));
    first [discriminate | reflexivity].
Defined.

(** ** Which inference operation a frame reaches *)

Lemma tier_switch_inferences {Session Coord : Type}
    (X : Extern Session Coord) (img : Mat.t) (s : State Session) :
  let a := ortAgent_ s in
  let ops := inferences (trace_of (tier_switch X img s)) in
  (precision_level a = 1 -> ops = [P1_infer]) /\
  (precision_level a = 2 ->
   ops = [if visualize a then P2_infer_visualize else P2_infer_action]) /\
  (precision_level a = 3 ->
   ops = [if visualize a then P3_infer_visualize else P3_infer_action]).
Proof.
  destruct s as [ag ss n]. unfold trace_of. unfold_cb. simpl.
  repeat split; intros Hl; rewrite Hl; cases_cb; reflexivity.
Qed.

(** X16. On an initialised session, a single-stream frame that is not
    empty, converts, and has the locked width or the locked height, gets to
    the dispatch and makes exactly one inference call, whether or not that
    call then succeeds: the classification with tier 1, the visualization
    variant of tier 2 (tier 3) with the flag set, its structured variant
    with the flag clear. *)
Theorem accepted_frame_reaches_one_operation {Session Coord : Type}
    (X : Extern Session Coord) (msg : Image.t) (img : Mat.t)
    (s : State Session) :
  initialized (ortAgent_ s) = true ->
  Image.height msg <> 0 ->
  toCvCopy X msg "bgr8" = inr img ->
  lockedWidth (ortAgent_ s) = Mat.cols img \/
  lockedHeight (ortAgent_ s) = Mat.rows img ->
  let a := ortAgent_ s in
  let ops := inferences (trace_of (image_callback X msg s)) in
  (precision_level a = 1 -> ops = [P1_infer]) /\
  (precision_level a = 2 ->
   ops = [if visualize a then P2_infer_visualize else P2_infer_action]) /\
  (precision_level a = 3 ->
   ops = [if visualize a then P3_infer_visualize else P3_infer_action]).
Proof.
  intros Hi Hh Hd Hdim a ops. subst a ops.
  assert (Hc : negb (lockedWidth (ortAgent_ s) =? Mat.cols img)
               && negb (lockedHeight (ortAgent_ s) =? Mat.rows img) = false).
  { destruct Hdim as [E | E]; rewrite E, Z.eqb_refl; simpl;
      [reflexivity | apply andb_false_r]. }
  rewrite (image_callback_eq X msg img s Hh Hd).
  rewrite (init_or_check_initialized X img s Hi), Hc.
  pose proof (tier_switch_inferences X img (tick s)) as T. simpl in T.
  destruct (tier_switch X img (tick s)) as [[[u | e |] s2] t2];
    unfold trace_of in *; simpl in *;
    rewrite ?inferences_app; simpl; rewrite ?app_nil_r; exact T.
Qed.

Lemma accepted_frame_reaches_one_operation_witness :
  Image.height (Fixture.frame 640 240) <> 0 /\
  inferences
    (trace_of (image_callback (Fixture.collaborators true)
                 (Fixture.frame 640 240) (Fixture.locked 640 480 3 false)))
  = [P3_infer_action].
Proof.
  split; [discriminate |].
  refine (proj2 (proj2 (accepted_frame_reaches_one_operation
                          (Fixture.collaborators true)
                          (Fixture.frame 640 240) (Mat.mk 240 640 [])
                          (Fixture.locked 640 480 3 false) _ _ _ _)) _);
    first [discriminate | reflexivity | left; reflexivity].
Defined.

(** ** What a callback does not read *)

Section Independence.
Context {Session Coord : Type} (X : Extern Session Coord).

Lemma localize_dispatch_ignores_the_tier (img depth_img : Mat.t)
    (depth_msg : Image.t) (c : CameraInfo.t) (b tier : Z)
    (s : State Session) :
  localize_dispatch X img depth_img depth_msg c b (with_precision_level s tier)
  = let '(o, s2, t) := localize_dispatch X img depth_img depth_msg c b s in
    (o, with_precision_level s2 tier, t).
Proof.
  destruct s as [[i w h p v u] ss n].
  unfold with_precision_level, localize_dispatch, isVisualize, session_call,
    publish, defined, now, RCLCPP_INFO_fps, emit, bind, get_agent, ret,
    undefined.
  cbn. destruct v; cbn.
  - destruct (p3_infer_visualize_depth X ss img depth_img c) as [[e | r] ss'];
      reflexivity.
  - destruct (p3_infer_action_depth X ss img depth_img c) as [[e | r] ss'];
      cbn; [reflexivity |].
    destruct (localize_fill img depth_msg c r); reflexivity.
Qed.

Lemma tier1_switch_ignores_the_flag (img : Mat.t) (vis : bool)
    (s : State Session) :
  precision_level (ortAgent_ s) = 1 ->
  tier_switch X img (with_visualize s vis)
  = let '(o, s2, t) := tier_switch X img s in (o, with_visualize s2 vis, t).
Proof.
  destruct s as [[i w h p v u] ss n]. simpl. intros ->.
  unfold with_visualize, tier_switch, get_precision_level, isVisualize,
    session_call, publish, defined, emit, bind, get_agent, ret.
  cbn. destruct (p1_infer X ss img) as [[e | r] ss']; reflexivity.
Qed.

End Independence.

(** X17. On an initialised session the synchronized route does not read the
    precision tier: with any other tier configured, the callback ends the
    same way, with the same trace, and leaves the same state but for the
    tier. *)
Theorem localize_callback_ignores_the_tier {Session Coord : Type}
    (X : Extern Session Coord) (msg depth_msg : Image.t) (c : CameraInfo.t)
    (s : State Session) (tier : Z) :
  initialized (ortAgent_ s) = true ->
  outcome_of (localize_callback X msg depth_msg c (with_precision_level s tier))
    = outcome_of (localize_callback X msg depth_msg c s) /\
  trace_of (localize_callback X msg depth_msg c (with_precision_level s tier))
    = trace_of (localize_callback X msg depth_msg c s) /\
  state_of (localize_callback X msg depth_msg c (with_precision_level s tier))
    = with_precision_level
        (state_of (localize_callback X msg depth_msg c s)) tier.
Proof.
  intros Hi.
  assert (Hi' : initialized (ortAgent_ (with_precision_level s tier)) = true)
    by exact Hi.
  destruct (Z.eq_dec (Image.height msg) 0) as [Hh | Hh].
  { pose proof (handle_empty X (Tuple msg depth_msg c)) as E. simpl in E.
    rewrite !E by exact Hh. repeat split. }
  destruct (toCvCopy X msg "bgr8") as [e | img] eqn:Hd.
  { rewrite !(localize_callback_no_decode X msg depth_msg c e _ Hh
                (or_introl Hd)).
    repeat split. }
  destruct (toCvCopy X depth_msg "16UC1") as [e | depth_img] eqn:Hdd.
  { rewrite !(localize_callback_no_decode X msg depth_msg c e _ Hh
                (or_intror (conj (ex_intro _ img Hd) Hdd))).
    repeat split. }
  rewrite !(localize_callback_eq X msg depth_msg c img depth_img _ Hh Hd Hdd).
  rewrite (init_or_check_initialized X img _ Hi').
  rewrite (init_or_check_initialized X img _ Hi).
  change (lockedWidth (ortAgent_ (with_precision_level s tier)))
    with (lockedWidth (ortAgent_ s)).
  change (lockedHeight (ortAgent_ (with_precision_level s tier)))
    with (lockedHeight (ortAgent_ s)).
  destruct (negb (lockedWidth (ortAgent_ s) =? Mat.cols img)
            && negb (lockedHeight (ortAgent_ s) =? Mat.rows img));
    [repeat split |].
  change (tick (with_precision_level s tier))
    with (with_precision_level (tick s) tier).
  change (clock_reads (with_precision_level s tier)) with (clock_reads s).
  rewrite localize_dispatch_ignores_the_tier.
  destruct (localize_dispatch X img depth_img depth_msg c
              (clock X (clock_reads s)) (tick s)) as [[o s2] t2].
  repeat split.
Qed.

Lemma localize_callback_ignores_the_tier_witness :
  initialized (ortAgent_ (Fixture.locked 640 480 1 false)) = true /\
  trace_of
    (localize_callback (Fixture.collaborators false) (Fixture.frame 640 480)
       (Fixture.depth 640 480) Fixture.calibration
       (with_precision_level (Fixture.locked 640 480 1 false) 2))
  = trace_of
      (localize_callback (Fixture.collaborators false) (Fixture.frame 640 480)
         (Fixture.depth 640 480) Fixture.calibration
         (Fixture.locked 640 480 1 false)).
Proof.
  split; [reflexivity |].
  refine (proj1 (proj2 (localize_callback_ignores_the_tier
                          (Fixture.collaborators false)
                          (Fixture.frame 640 480) (Fixture.depth 640 480)
                          Fixture.calibration
                          (Fixture.locked 640 480 1 false) 2 _))).
  reflexivity.
Defined.

(** X18. On an initialised session with tier 1 the single-stream route does
    not read the visualize flag: with the flag flipped, the callback ends
    the same way, with the same trace, and leaves the same state but for
    the flag. *)
Theorem tier1_ignores_the_visualize_flag {Session Coord : Type}
    (X : Extern Session Coord) (msg : Image.t) (s : State Session)
    (vis : bool) :
  initialized (ortAgent_ s) = true ->
  precision_level (ortAgent_ s) = 1 ->
  outcome_of (image_callback X msg (with_visualize s vis))
    = outcome_of (image_callback X msg s) /\
  trace_of (image_callback X msg (with_visualize s vis))
    = trace_of (image_callback X msg s) /\
  state_of (image_callback X msg (with_visualize s vis))
    = with_visualize (state_of (image_callback X msg s)) vis.
Proof.
  intros Hi Hl.
  assert (Hi' : initialized (ortAgent_ (with_visualize s vis)) = true)
    by exact Hi.
  destruct (Z.eq_dec (Image.height msg) 0) as [Hh | Hh].
  { pose proof (handle_empty X (Frame msg)) as E. simpl in E.
    rewrite !E by exact Hh. repeat split. }
  destruct (toCvCopy X msg "bgr8") as [e | img] eqn:Hd.
  { rewrite !(image_callback_no_decode X msg e _ Hh Hd). repeat split. }
  rewrite !(image_callback_eq X msg img _ Hh Hd).
  rewrite (init_or_check_initialized X img _ Hi').
  rewrite (init_or_check_initialized X img _ Hi).
  change (lockedWidth (ortAgent_ (with_visualize s vis)))
    with (lockedWidth (ortAgent_ s)).
  change (lockedHeight (ortAgent_ (with_visualize s vis)))
    with (lockedHeight (ortAgent_ s)).
  destruct (negb (lockedWidth (ortAgent_ s) =? Mat.cols img)
            && negb (lockedHeight (ortAgent_ s) =? Mat.rows img));
    [repeat split |].
  change (tick (with_visualize s vis)) with (with_visualize (tick s) vis).
  change (clock_reads (with_visualize s vis)) with (clock_reads s).
  rewrite (tier1_switch_ignores_the_flag X img vis (tick s) Hl).
  destruct (tier_switch X img (tick s)) as [[[u | e |] s2] t2];
    repeat split.
Qed.

Lemma tier1_ignores_the_visualize_flag_witness :
  initialized (ortAgent_ (Fixture.locked 640 480 1 false)) = true /\
  trace_of
    (image_callback (Fixture.collaborators false) (Fixture.frame 640 480)
       (with_visualize (Fixture.locked 640 480 1 false) true))
  = trace_of
      (image_callback (Fixture.collaborators false) (Fixture.frame 640 480)
         (Fixture.locked 640 480 1 false)).
Proof.
  split; [reflexivity |].
  refine (proj1 (proj2 (tier1_ignores_the_visualize_flag
                          (Fixture.collaborators false)
                          (Fixture.frame 640 480)
                          (Fixture.locked 640 480 1 false) true _ _)));
    reflexivity.
Defined.

(** ** After a failed construction *)

(** On an uninitialised session, an arrival that is not empty and converts
    has its dimensions stored and the engine construction attempted for
    them, however the construction and the rest of the callback end. *)
Lemma handle_uninitialized {Session Coord : Type} (X : Extern Session Coord)
    (a : Arrival) (img : Mat.t) (s : State Session) :
  initialized (ortAgent_ s) = false ->
  Image.height (primary a) <> 0 ->
  decodes X a img ->
  constructions (trace_of (handle X a s)) = [(Mat.cols img, Mat.rows img)] /\
  lockedWidth (ortAgent_ (state_of (handle X a s))) = Mat.cols img /\
  lockedHeight (ortAgent_ (state_of (handle X a s))) = Mat.rows img /\
  (forall ss,
     ort_initORTSessionHandler X (sized (ortAgent_ s) img) (sessions s)
       = inr ss ->
     initialized (ortAgent_ (state_of (handle X a s))) = true) /\
  (forall e,
     ort_initORTSessionHandler X (sized (ortAgent_ s) img) (sessions s)
       = inl e ->
     outcome_of (handle X a s) = Thrown e /\
     initialized (ortAgent_ (state_of (handle X a s))) = false).
Proof.
  intros Hi Hh Hd.
  destruct (ort_initORTSessionHandler X (sized (ortAgent_ s) img)
              (sessions s)) as [e | ss] eqn:Ho.
  - rewrite (handle_construction_fails X a img e s Hi Hh Hd Ho).
    unfold outcome_of, state_of, trace_of. simpl.
    split; [reflexivity |]. split; [reflexivity |]. split; [reflexivity |].
    split.
    + intros ss0 H0. discriminate H0.
    + intros e0 H0. inversion H0; subst. split; [reflexivity | exact Hi].
  - destruct (handle_first_frame X a img s ss Hi Hh Hd Ho) as [Ha Hc].
    rewrite Hc, Ha. simpl.
    split; [reflexivity |]. split; [reflexivity |]. split; [reflexivity |].
    split.
    + intros ss0 H0. reflexivity.
    + intros e0 H0. discriminate H0.
Qed.

(** X19. A failed engine construction locks nothing.  After it, the next
    arrival that is not empty and converts, whatever its size (the size of
    the failed frame included), is not checked against the stored
    dimensions: its own dimensions are stored and the construction is
    attempted again, once, for them.  The session is initialised if that
    construction returns; if it throws, its exception leaves the callback
    and the session stays uninitialised. *)
Theorem construction_is_retried_with_the_next_frame {Session Coord : Type}
    (X : Extern Session Coord) (a1 a2 : Arrival) (img1 img2 : Mat.t)
    (e : exn) (s : State Session) :
  initialized (ortAgent_ s) = false ->
  Image.height (primary a1) <> 0 ->
  decodes X a1 img1 ->
  ort_initORTSessionHandler X (sized (ortAgent_ s) img1) (sessions s)
    = inl e ->
  Image.height (primary a2) <> 0 ->
  decodes X a2 img2 ->
  constructions (trace_of (handle X a2 (state_of (handle X a1 s))))
    = [(Mat.cols img2, Mat.rows img2)] /\
  lockedWidth (ortAgent_ (state_of (handle X a2 (state_of (handle X a1 s)))))
    = Mat.cols img2 /\
  lockedHeight (ortAgent_ (state_of (handle X a2 (state_of (handle X a1 s)))))
    = Mat.rows img2 /\
  (forall ss,
     ort_initORTSessionHandler X (sized (ortAgent_ s) img2) (sessions s)
       = inr ss ->
     initialized
       (ortAgent_ (state_of (handle X a2 (state_of (handle X a1 s)))))
       = true) /\
  (forall e2,
     ort_initORTSessionHandler X (sized (ortAgent_ s) img2) (sessions s)
       = inl e2 ->
     outcome_of (handle X a2 (state_of (handle X a1 s))) = Thrown e2 /\
     initialized
       (ortAgent_ (state_of (handle X a2 (state_of (handle X a1 s)))))
       = false).
Proof.
  intros Hi Hh1 Hd1 Ho1 Hh2 Hd2.
  rewrite (handle_construction_fails X a1 img1 e s Hi Hh1 Hd1 Ho1).
  exact (handle_uninitialized X a2 img2
           (mkState (sized (ortAgent_ s) img1) (sessions s) (clock_reads s))
           Hi Hh2 Hd2).
Qed.

Lemma construction_is_retried_with_the_next_frame_witness :
  Image.height (primary (Frame (Fixture.frame 640 480))) <> 0 /\
  constructions
    (trace_of
       (handle narrow_engine (Frame (Fixture.frame 640 480))
          (state_of
             (handle narrow_engine (Frame (Fixture.frame 640 480))
                (Fixture.fresh 2 false)))))
    = [(640, 480)] /\
  outcome_of
    (handle narrow_engine (Frame (Fixture.frame 640 480))
       (state_of
          (handle narrow_engine (Frame (Fixture.frame 640 480))
             (Fixture.fresh 2 false))))
    = Thrown engine_error /\
  initialized
    (ortAgent_
       (state_of
          (handle narrow_engine (Frame (Fixture.frame 320 240))
             (state_of
                (handle narrow_engine (Frame (Fixture.frame 640 480))
                   (Fixture.fresh 2 false))))))
    = true.
Proof.
  assert (Hh : Image.height (primary (Frame (Fixture.frame 640 480))) <> 0)
    by discriminate.
  assert (Hh' : Image.height (primary (Frame (Fixture.frame 320 240))) <> 0)
    by discriminate.
  pose proof (construction_is_retried_with_the_next_frame narrow_engine
                (Frame (Fixture.frame 640 480))
                (Frame (Fixture.frame 640 480))
                (Mat.mk 480 640 []) (Mat.mk 480 640 [])
                engine_error (Fixture.fresh 2 false)
                eq_refl Hh eq_refl eq_refl Hh eq_refl) as Same.
  pose proof (construction_is_retried_with_the_next_frame narrow_engine
                (Frame (Fixture.frame 640 480))
                (Frame (Fixture.frame 320 240))
                (Mat.mk 480 640 []) (Mat.mk 240 320 [])
                engine_error (Fixture.fresh 2 false)
                eq_refl Hh eq_refl eq_refl Hh' eq_refl) as Other.
  split; [exact Hh |].
  split; [exact (proj1 Same) |].
  split.
  - exact (proj1 (proj2 (proj2 (proj2 (proj2 Same))) engine_error eq_refl)).
  - exact (proj1 (proj2 (proj2 (proj2 Other))) O eq_refl).
Defined.

(** ** Evaluations *)

Lemma publication_means_success_witness :
  In (p1_pub {| EPDImageClassification.object_names := ["cat"] |})
    (published
       (trace_of (handle (Fixture.collaborators false)
                    (Frame (Fixture.frame 640 480))
                    (Fixture.fresh 1 false)))) /\
  outcome_of (handle (Fixture.collaborators false)
                (Frame (Fixture.frame 640 480)) (Fixture.fresh 1 false))
    = Val tt.
Proof.
  assert (H : In (p1_pub {| EPDImageClassification.object_names := ["cat"] |})
                (published
                   (trace_of (handle (Fixture.collaborators false)
                                (Frame (Fixture.frame 640 480))
                                (Fixture.fresh 1 false)))))
    by (left; reflexivity).
  split; [exact H |].
  exact (proj1 (publication_means_success (Fixture.collaborators false)
                  (Frame (Fixture.frame 640 480)) (Fixture.fresh 1 false)
                  _ H)).
Defined.

Lemma channel_reveals_configuration_witness :
  In (p1_pub {| EPDImageClassification.object_names := ["cat"] |})
    (published
       (trace_of (handle (Fixture.collaborators false)
                    (Frame (Fixture.frame 640 480))
                    (Fixture.fresh 1 true)))) /\
  precision_level (ortAgent_ (Fixture.fresh 1 true)) = 1.
Proof.
  assert (H : In (p1_pub {| EPDImageClassification.object_names := ["cat"] |})
                (published
                   (trace_of (handle (Fixture.collaborators false)
                                (Frame (Fixture.frame 640 480))
                                (Fixture.fresh 1 true)))))
    by (left; reflexivity).
  split; [exact H |].
  exact (channel_reveals_configuration (Fixture.collaborators false)
           (Frame (Fixture.frame 640 480)) (Fixture.fresh 1 true) _ H).
Defined.

Lemma process_time_is_the_logged_time_witness :
  In (localize_pub sample_localization_record)
    (published
       (trace_of (handle (Fixture.collaborators false)
                    (Tuple (Fixture.frame 640 480) (Fixture.depth 640 480)
                       Fixture.calibration)
                    (Fixture.fresh 1 false)))) /\
  In (EvFps 5)
    (trace_of (handle (Fixture.collaborators false)
                 (Tuple (Fixture.frame 640 480) (Fixture.depth 640 480)
                    Fixture.calibration)
                 (Fixture.fresh 1 false))).
Proof.
  assert (H : In (localize_pub sample_localization_record)
                (published
                   (trace_of (handle (Fixture.collaborators false)
                                (Tuple (Fixture.frame 640 480)
                                   (Fixture.depth 640 480)
                                   Fixture.calibration)
                                (Fixture.fresh 1 false)))))
    by (left; reflexivity).
  split; [exact H |].
  exact (process_time_is_the_logged_time (Fixture.collaborators false)
           (Tuple (Fixture.frame 640 480) (Fixture.depth 640 480)
              Fixture.calibration)
           (Fixture.fresh 1 false) sample_localization_record H).
Defined.

Lemma localization_record_is_consistent_witness :
  In (localize_pub sample_localization_record)
    (published
       (trace_of (handle (Fixture.collaborators false)
                    (Tuple (Fixture.frame 640 480) (Fixture.depth 640 480)
                       Fixture.calibration)
                    (Fixture.fresh 1 false)))) /\
  EPDObjectLocalizationMsg.roi_array sample_localization_record
    = map LocalizedObject.roi
        (EPDObjectLocalizationMsg.objects sample_localization_record).
Proof.
  assert (H : In (localize_pub sample_localization_record)
                (published
                   (trace_of (handle (Fixture.collaborators false)
                                (Tuple (Fixture.frame 640 480)
                                   (Fixture.depth 640 480)
                                   Fixture.calibration)
                                (Fixture.fresh 1 false)))))
    by (left; reflexivity).
  split; [exact H |].
  exact (proj1 (localization_record_is_consistent
                  (Fixture.collaborators false)
                  (Tuple (Fixture.frame 640 480) (Fixture.depth 640 480)
                     Fixture.calibration)
                  (Fixture.fresh 1 false) sample_localization_record H)).
Defined.


Lemma no_warning_for_a_frame_with_rows_witness :
  Image.height (primary (Frame (Fixture.frame 320 240))) <> 0 /\
  warnings
    (trace_of (handle (Fixture.collaborators true)
                 (Frame (Fixture.frame 320 240))
                 (Fixture.locked 640 480 2 false))) = [].
Proof.
  split; [discriminate |].
  apply (no_warning_for_a_frame_with_rows (Fixture.collaborators true)
           (Frame (Fixture.frame 320 240)) (Fixture.locked 640 480 2 false)).
  discriminate.
Defined.
